(** * pmacFilterControl: the wrapper's supervision and recording logic

    A shallow embedding of the two wrapper sources of the repository:

    - [Legacy]: [src/pmacFilterControlWrapper.py], where the wrapper itself
      owns the h5py file ([_open_file], [_close_file], [_write_to_hdf5]);
    - [Wrapper]: [src/src/pmacfiltercontrol/pmacFilterControlWrapper.py],
      where the file lives behind an [HDFAdapter] and the wrapper holds the
      connection supervision ([_if_connected], [_query_status], the two
      stream monitors, [_handle_status]).

    Python objects that are mutated in place are threaded through a state
    and exception monad whose state survives a raised exception, as the
    fields of [self] do. *)

From Stdlib Require Import ZArith Ascii String List Bool Lia.
From stdpp Require Import base option list strings gmap pretty.
Import ListNotations.

Local Open Scope Z_scope.
Set Warnings "-register-all".

(** ** Python values and exceptions *)

(** What [json.loads] produces. Numbers are integers, as the handlers'
    annotations have them ([Dict[str, int]]); a [JDict] lists the items of
    the dictionary, the first binding of a key being the one looked up. *)
Inductive json : Type :=
| JNull
| JBool (b : bool)
| JInt (z : Z)
| JStr (s : string)
| JList (items : list json)
| JDict (items : list (string * json)).

Inductive exn : Type :=
| KeyError (key : string)
| TypeError
| IndexError
| OverflowError
| AssertionError
| JSONDecodeError
| RuntimeError (msg : string)
| OSError.

(** Outcome of running a piece of Python: a value, a raised exception, or
    a loop that was still running when the fuel ran out. *)
Inductive result (A : Type) : Type :=
| Ok (a : A)
| Raise (e : exn)
| Diverge.
Arguments Ok {A} a.
Arguments Raise {A} e.
Arguments Diverge {A}.

(** State and exception monad: the state is returned in every case. *)
Definition M (S A : Type) : Type := S -> result A * S.

Definition ret {S A} (a : A) : M S A := fun s => (Ok a, s).

Definition bind {S A B} (m : M S A) (k : A -> M S B) : M S B :=
  fun s =>
    match m s with
    | (Ok a, s') => k a s'
    | (Raise e, s') => (Raise e, s')
    | (Diverge, s') => (Diverge, s')
    end.

Definition raise {S A} (e : exn) : M S A := fun s => (Raise e, s).
Definition get {S} : M S S := fun s => (Ok s, s).
Definition modify {S} (f : S -> S) : M S unit := fun s => (Ok tt, f s).

(** [try: m except Exception: h] *)
Definition try_except {S A} (m : M S A) (h : exn -> M S A) : M S A :=
  fun s =>
    match m s with
    | (Raise e, s') => h e s'
    | r => r
    end.

(** Lifts a pure computation that may raise. *)
Definition lift {S A} (r : result A) : M S A := fun s => (r, s).

Declare Scope py_scope.
Delimit Scope py_scope with py.
Notation "x <- m ;; k" := (bind m (fun x => k))
  (at level 100, m at next level, right associativity) : py_scope.
Notation "m ;;; k" := (bind m (fun _ => k))
  (at level 100, right associativity) : py_scope.
Local Open Scope py_scope.

(** [d[key]] *)
Fixpoint assoc {A} (key : string) (items : list (string * A)) : option A :=
  match items with
  | [] => None
  | (k, v) :: rest => if String.eqb k key then Some v else assoc key rest
  end.

Definition py_getitem (d : json) (key : string) : result json :=
  match d with
  | JDict items =>
      match assoc key items with
      | Some v => Ok v
      | None => Raise (KeyError key)
      end
  | _ => Raise TypeError
  end.

(** The number a value compares as ([bool] is a subclass of [int]). *)
Definition py_num (v : json) : option Z :=
  match v with
  | JInt z => Some z
  | JBool b => Some (if b then 1 else 0)
  | _ => None
  end.

(** [a < b] and [a > b] against an integer *)
Definition py_lt (a : json) (b : Z) : result bool :=
  match py_num a with
  | Some z => Ok (z <? b)
  | None => Raise TypeError
  end.

Definition py_gt (a : json) (b : Z) : result bool :=
  match py_num a with
  | Some z => Ok (b <? z)
  | None => Raise TypeError
  end.

(** Is [needle] a substring of [s]? *)
Fixpoint substring_of (needle s : string) : bool :=
  String.prefix needle s
  || match s with
     | EmptyString => false
     | String _ rest => substring_of needle rest
     end.

(** [key in v], for a [str] key *)
Definition py_contains (key : string) (v : json) : result bool :=
  match v with
  | JDict items => Ok (bool_decide (is_Some (assoc key items)))
  | JList items =>
      Ok (existsb (fun x => match x with JStr s => String.eqb s key | _ => false end) items)
  | JStr s => Ok (substring_of key s)
  | _ => Raise TypeError
  end.

(** A status dictionary with the eight keys, all integers. *)
Definition status_message (state received elapsed : Z) : json :=
  JDict [("state", JInt state); ("version", JInt 1);
         ("process_duration", JInt 12); ("process_period", JInt 50);
         ("last_received_frame", JInt received);
         ("last_processed_frame", JInt received);
         ("time_since_last_message", JInt elapsed);
         ("current_attenuation", JInt 3)].

(** ** 64-bit integers of numpy ([np.int64], [dtype=int]) *)

Definition int64_min : Z := - 2 ^ 63.
Definition int64_max : Z := 2 ^ 63 - 1.

Definition in_int64 (z : Z) : bool := (int64_min <=? z) && (z <=? int64_max).

(** Two's complement wrap-around of an [np.int64] scalar operation. *)
Definition wrap64 (z : Z) : Z := (z + 2 ^ 63) mod 2 ^ 64 - 2 ^ 63.

(** ** The state sink

    The eight status records of the IOC. [sink] fields below hold the calls
    of their [set] method, oldest first. *)
Inductive pv : Type :=
| STATE
| VERSION
| PROCESS_DURATION
| PROCESS_PERIOD
| FRAME_RECEIVED
| FRAME_PROCESSED
| FRAME_LAST_TIME
| ATTENUATION_RBV.

(** The key of the status dictionary each record is fed from, in the order
    in which [_handle_status] reads them. *)
Definition status_fields : list (string * pv) :=
  [("state", STATE); ("version", VERSION);
   ("process_duration", PROCESS_DURATION); ("process_period", PROCESS_PERIOD);
   ("last_received_frame", FRAME_RECEIVED);
   ("last_processed_frame", FRAME_PROCESSED);
   ("time_since_last_message", FRAME_LAST_TIME);
   ("current_attenuation", ATTENUATION_RBV)].

(** The argument of a [set]: a value as received, or [str(v)] of one. *)
Inductive sinkval : Type :=
| Verbatim (v : json)
| Str (v : json).

(** ** String helpers of the path handling *)

Definition string_rev (s : string) : string :=
  string_of_list_ascii (rev (list_ascii_of_string s)).

Definition char_in (c : Ascii.ascii) (chars : string) : bool :=
  existsb (Ascii.eqb c) (list_ascii_of_string chars).

Fixpoint lstrip (chars s : string) : string :=
  match s with
  | EmptyString => EmptyString
  | String c rest => if char_in c chars then lstrip chars rest else s
  end.

(** [s.strip(chars)]: drops leading and trailing characters found in [chars] *)
Definition py_strip (chars s : string) : string :=
  string_rev (lstrip chars (string_rev (lstrip chars s))).

(** [s.rsplit("/", 1)]: [None] when [s] holds no slash (a one-element list),
    else what is before and after the last one. *)
Fixpoint rsplit_slash (s : string) : option (string * string) :=
  match s with
  | EmptyString => None
  | String c rest =>
      match rsplit_slash rest with
      | Some (a, b) => Some (String c a, b)
      | None => if Ascii.eqb c "/"%char then Some (EmptyString, rest) else None
      end
  end.

(** The line break of a Python string literal *)
Definition newline : string := String "010"%char EmptyString.

(** * The legacy wrapper: [src/pmacFilterControlWrapper.py] *)
Module Legacy.

Definition ATTENUATION_KEY : string := "attenuation".
Definition ADJUSTMENT_KEY : string := "adjustment".
Definition FRAME_NUMBER_KEY : string := "frame_number".

(** The decoded event message handed to [_write_to_hdf5]: its
    [frame_number], [adjustment] and [attenuation] entries (Python [int]s,
    hence unbounded). *)
Record FrameRecord : Type := {
  frame_number : Z;
  adjustment : Z;
  attenuation : Z
}.

(** An [h5py.File]: its name and its one-dimensional integer datasets. *)
Record File : Type := {
  filename : string;
  datasets : gmap string (list Z)
}.

(** What the wrapper sees of the operating system: the directories and the
    files that exist, and the rendering of [dt.time(dt.now())]. *)
Record OS : Type := {
  dirs : list string;
  files : list string;
  clock : string
}.

Record Wrapper : Type := {
  connected : bool;
  status_recv : bool;
  h5f : option File;
  file_path : string;
  file_name : string;
  file_full_name : string;
  timeout_rbv : Z;
  sink : list (pv * sinkval);
  stdout : list string;
  os : OS
}.

Definition set_h5f (v : option File) (w : Wrapper) : Wrapper :=
  {| connected := connected w; status_recv := status_recv w; h5f := v;
     file_path := file_path w; file_name := file_name w;
     file_full_name := file_full_name w; timeout_rbv := timeout_rbv w;
     sink := sink w; stdout := stdout w; os := os w |}.

Definition set_file_full_name (v : string) (w : Wrapper) : Wrapper :=
  {| connected := connected w; status_recv := status_recv w; h5f := h5f w;
     file_path := file_path w; file_name := file_name w;
     file_full_name := v; timeout_rbv := timeout_rbv w;
     sink := sink w; stdout := stdout w; os := os w |}.

Definition set_sink (v : list (pv * sinkval)) (w : Wrapper) : Wrapper :=
  {| connected := connected w; status_recv := status_recv w; h5f := h5f w;
     file_path := file_path w; file_name := file_name w;
     file_full_name := file_full_name w; timeout_rbv := timeout_rbv w;
     sink := v; stdout := stdout w; os := os w |}.

Definition set_stdout (v : list string) (w : Wrapper) : Wrapper :=
  {| connected := connected w; status_recv := status_recv w; h5f := h5f w;
     file_path := file_path w; file_name := file_name w;
     file_full_name := file_full_name w; timeout_rbv := timeout_rbv w;
     sink := sink w; stdout := v; os := os w |}.

Definition set_os (v : OS) (w : Wrapper) : Wrapper :=
  {| connected := connected w; status_recv := status_recv w; h5f := h5f w;
     file_path := file_path w; file_name := file_name w;
     file_full_name := file_full_name w; timeout_rbv := timeout_rbv w;
     sink := sink w; stdout := stdout w; os := v |}.

Definition print (line : string) : M Wrapper unit :=
  modify (fun w => set_stdout (stdout w ++ [line]) w).

(** [record.set(v)] on one of the status records *)
Definition publish (r : pv) (v : sinkval) : M Wrapper unit :=
  modify (fun w => set_sink (sink w ++ [(r, v)]) w).

Definition os_path_isdir (p : string) (w : Wrapper) : bool :=
  bool_decide (p ∈ dirs (os w)).

Definition os_path_isfile (p : string) (w : Wrapper) : bool :=
  bool_decide (p ∈ files (os w)).

(** [os.makedirs(d, exist_ok=True)] *)
Definition os_makedirs (d : string) : M Wrapper unit :=
  modify (fun w =>
    set_os {| dirs := d :: dirs (os w); files := files (os w); clock := clock (os w) |} w).

(** [h5py.File(name, "w", libver="latest")]: a new, empty file of that
    name. The directory the name lies in is taken to exist: the error
    [h5py] raises when it does not is not modelled. The switch to SWMR mode
    that follows it changes nothing of what is modelled here. *)
Definition h5py_File (name : string) : M Wrapper File :=
  fun w =>
    (Ok {| filename := name; datasets := ∅ |},
     set_os {| dirs := dirs (os w); files := name :: files (os w); clock := clock (os w) |} w).

Definition _combine_file_path_and_name (exists_ : bool) : M Wrapper unit :=
  w <- get ;;
  let path := file_path w in
  let name :=
    if exists_
    then py_strip ".h5" (file_name w) +:+ ("-" +:+ clock (os w) +:+ ".h5")
    else file_name w in
  let full_path := path +:+ "/" +:+ name in
  modify (set_file_full_name full_path).

Definition _check_path : M Wrapper bool :=
  w <- get ;;
  if String.eqb (file_path w) "" || String.eqb (file_name w) "" then
    print ("Please enter a valid file path and name." +:+ newline
           +:+ "Path=" +:+ file_path w +:+ newline
           +:+ "Name=" +:+ file_name w +:+ newline
           +:+ "FullPath=" +:+ file_full_name w) ;;;
    ret false
  else if negb (os_path_isdir (file_path w) w) then
    let parts := rsplit_slash (file_path w) in
    let parent_path := match parts with Some (a, _) => a | None => file_path w end in
    dir_name <- lift (match parts with Some (_, b) => Ok b | None => Raise IndexError end) ;;
    if negb (os_path_isdir parent_path w) then
      print "Path not found. Enter a valid path." ;;;
      ret false
    else
      print "Parent path exists, making new dir" ;;;
      os_makedirs dir_name ;;;
      ret true
  else
    (if os_path_isfile (file_full_name w) w
     then _combine_file_path_and_name true
     else ret tt) ;;;
    ret true.

Definition _open_file : M Wrapper bool :=
  w <- get ;;
  match h5f w with
  | None =>
      ok <- _check_path ;;
      (if ok then
         w <- get ;;
         f <- h5py_File (file_full_name w) ;;
         modify (set_h5f (Some f))
       else ret tt) ;;;
      ret true
  | Some f =>
      if negb (String.eqb (file_full_name w) (filename f)) then
        print "Another file is already open and being written to." ;;;
        ret false
      else ret true
  end.

(** [assert isinstance(self.h5f, h5py.File)] *)
Definition the_file : M Wrapper File :=
  fun w =>
    match h5f w with
    | Some f => (Ok f, w)
    | None => (Raise AssertionError, w)
    end.

Definition _close_file : M Wrapper unit :=
  _ <- the_file ;;
  modify (set_h5f None).

(** In-place change of the open file. *)
Definition update_file (g : File -> File) : M Wrapper unit :=
  modify (fun w => set_h5f (g <$> h5f w) w).

(** [create_dataset(key, (128,), maxshape=(None,), dtype=int)]: 128 slots
    holding the fill value 0 *)
Definition create_dataset (key : string) (f : File) : File :=
  {| filename := filename f;
     datasets := <[key := replicate 128 0]> (datasets f) |}.

(** [self.h5f.get(key)] followed by [assert isinstance(_, h5py.Dataset)] *)
Definition get_dataset (key : string) : M Wrapper (list Z) :=
  f <- the_file ;;
  match datasets f !! key with
  | Some d => ret d
  | None => raise AssertionError
  end.

(** [dset.resize((n,))]: slots beyond the old size hold the fill value *)
Definition resize (n : Z) (d : list Z) : list Z :=
  take (Z.to_nat n) d ++ replicate (Z.to_nat n - length d) 0.

Definition resize_dataset (key : string) (n : Z) (f : File) : File :=
  {| filename := filename f;
     datasets := alter (resize n) key (datasets f) |}.

(** [dset[i] = v]: the value is converted to the dataset's 64-bit type
    first, then a negative index counts from the end, and an index outside
    of the dataset is refused. *)
Definition dset_setitem (i v : Z) (d : list Z) : result (list Z) :=
  if negb (in_int64 v) then Raise OverflowError
  else
    let n := Z.of_nat (length d) in
    let j := if i <? 0 then n + i else i in
    if (0 <=? j) && (j <? n) then Ok (<[Z.to_nat j := v]> d)
    else Raise IndexError.

Definition setitem_dataset (key : string) (i v : Z) : M Wrapper unit :=
  d <- get_dataset key ;;
  d' <- lift (dset_setitem i v d) ;;
  update_file (fun f =>
    {| filename := filename f; datasets := <[key := d']> (datasets f) |}).

(** The loop [while dset_size <= frame: dset_size = dset_size + 1]. The
    counter is the dataset's [size], an [np.int64] as the function asserts,
    so the addition wraps around. *)
Fixpoint grow_size (fuel : nat) (dset_size frame : Z) : result Z :=
  match fuel with
  | O => if dset_size <=? frame then Diverge else Ok dset_size
  | S fuel' =>
      if dset_size <=? frame
      then grow_size fuel' (wrap64 (dset_size + 1)) frame
      else Ok dset_size
  end.

Definition _write_to_hdf5 (fuel : nat) (data : FrameRecord) : M Wrapper unit :=
  f <- the_file ;;
  (if bool_decide (datasets f !! ADJUSTMENT_KEY = None)
   then update_file (create_dataset ADJUSTMENT_KEY) else ret tt) ;;;
  f <- the_file ;;
  (if bool_decide (datasets f !! ATTENUATION_KEY = None)
   then update_file (create_dataset ATTENUATION_KEY) else ret tt) ;;;
  adjustment_dset <- get_dataset ADJUSTMENT_KEY ;;
  attenuation_dset <- get_dataset ATTENUATION_KEY ;;
  (if bool_decide (length adjustment_dset = length attenuation_dset)
   then ret tt else raise AssertionError) ;;;
  let dset_size := Z.of_nat (length adjustment_dset) in
  (if dset_size <=? frame_number data then
     dset_size <- lift (grow_size fuel dset_size (frame_number data)) ;;
     update_file (resize_dataset ADJUSTMENT_KEY dset_size) ;;;
     update_file (resize_dataset ATTENUATION_KEY dset_size)
   else ret tt) ;;;
  setitem_dataset ADJUSTMENT_KEY (frame_number data) (adjustment data) ;;;
  setitem_dataset ATTENUATION_KEY (frame_number data) (attenuation data).

(** Successive event messages written to the open file. *)
Fixpoint write_frames (fuel : nat) (frames : list FrameRecord) : M Wrapper unit :=
  match frames with
  | [] => ret tt
  | data :: rest => _write_to_hdf5 fuel data ;;; write_frames fuel rest
  end.

Definition _handle_status (status : json) : M Wrapper unit :=
  state <- lift (py_getitem status "state") ;;
  publish STATE (Verbatim state) ;;;
  version <- lift (py_getitem status "version") ;;
  publish VERSION (Str version) ;;;
  process_duration <- lift (py_getitem status "process_duration") ;;
  publish PROCESS_DURATION (Verbatim process_duration) ;;;
  process_period <- lift (py_getitem status "process_period") ;;
  publish PROCESS_PERIOD (Verbatim process_period) ;;;
  last_received_frame <- lift (py_getitem status "last_received_frame") ;;
  publish FRAME_RECEIVED (Verbatim last_received_frame) ;;;
  last_processed_frame <- lift (py_getitem status "last_processed_frame") ;;
  publish FRAME_PROCESSED (Verbatim last_processed_frame) ;;;
  time_since_last_frame <- lift (py_getitem status "time_since_last_message") ;;
  publish FRAME_LAST_TIME (Verbatim time_since_last_frame) ;;;
  w <- get ;;
  timed_out <- lift (py_gt time_since_last_frame (timeout_rbv w)) ;;
  (if timed_out && bool_decide (h5f w <> None)
   then try_except _close_file (fun e => print "Failed closing file.")
   else ret tt) ;;;
  current_attenuation <- lift (py_getitem status "current_attenuation") ;;
  publish ATTENUATION_RBV (Verbatim current_attenuation).


(** ** Views of the open file *)

(** The two columns of the open file, once both datasets exist. *)
Definition columns (w : Wrapper) : option (list Z * list Z) :=
  match h5f w with
  | Some f =>
      match datasets f !! ADJUSTMENT_KEY, datasets f !! ATTENUATION_KEY with
      | Some a, Some b => Some (a, b)
      | _, _ => None
      end
  | None => None
  end.

(** The column a write starts from: a dataset that does not exist yet is
    created with 128 zeros. *)
Definition effective (f : File) (key : string) : list Z :=
  default (replicate 128 0) (datasets f !! key).

(** The file after [if key not in self.h5f.keys(): create_dataset(key, ...)]. *)
Definition ensured (key : string) (f : File) : File :=
  {| filename := filename f;
     datasets := <[key := effective f key]> (datasets f) |}.

(** A column grown up to slot [n] where needed, then set there. *)
Definition written (v : Z) (n : nat) (d : list Z) : list Z :=
  <[n := v]> (d ++ replicate (S n - length d) 0).

(** An open file whose two columns, as the next write finds them, are
    [adj] and [att]: of one length, which an [np.int64] holds. *)
Definition OpenTable (w : Wrapper) (adj att : list Z) : Prop :=
  exists f, h5f w = Some f /\
    effective f ADJUSTMENT_KEY = adj /\ effective f ATTENUATION_KEY = att /\
    length adj = length att /\ Z.of_nat (length adj) <= int64_max.

(** An event message of the data model: a non-negative frame number that
    the loop of [_write_to_hdf5] reaches within [fuel] turns, and values
    that fit the datasets' 64-bit type. *)
Definition WellFormed (fuel : nat) (data : FrameRecord) : Prop :=
  0 <= frame_number data < int64_max /\
  frame_number data < Z.of_nat fuel /\
  in_int64 (adjustment data) = true /\
  in_int64 (attenuation data) = true.

Definition frame (n a t : Z) : FrameRecord :=
  {| frame_number := n; adjustment := a; attenuation := t |}.

(** The wrapper as [__init__] leaves it, with the directory of the default
    path in place. *)
Definition startup : Wrapper :=
  {| connected := false; status_recv := true; h5f := None;
     file_path := "/data"; file_name := "tmp.h5";
     file_full_name := "/data/tmp.h5"; timeout_rbv := 3;
     sink := []; stdout := [];
     os := {| dirs := ["/data"]; files := []; clock := "12:00:00" |} |}.

(** The same wrapper after the first event message opened the file. *)
Definition recording : Wrapper := snd (_open_file startup).

End Legacy.

(** ** Messages on the two streams *)

(** The bytes a stream delivers, by what [json.loads] makes of them: bytes
    that are not a JSON document, or the encoding of a document. *)
Inductive wire : Type :=
| Garbled (raw : string)
| Encoded (doc : json).

Definition json_loads (resp : wire) : result json :=
  match resp with
  | Garbled _ => Raise JSONDecodeError
  | Encoded doc => Ok doc
  end.

(** What one turn of a monitor loop finds: the stream is not running (the
    loop waits until it runs again), or [get_response] hands over a
    response, which may be [None]. *)
Inductive stream_event : Type :=
| Down
| Response (resp : option wire).

(** [16 + v] *)
Definition py_add (a : Z) (v : json) : result json :=
  match py_num v with
  | Some z => Ok (JInt (a + z))
  | None => Raise TypeError
  end.

(** [d[key] = v] on the items of a dictionary *)
Fixpoint dict_set {A} (key : string) (v : A) (items : list (string * A))
  : list (string * A) :=
  match items with
  | [] => [(key, v)]
  | (k, x) :: rest =>
      if String.eqb k key then (k, v) :: rest else (k, x) :: dict_set key v rest
  end.

(** [Path(p).name] *)
Definition path_name (p : string) : string :=
  match rsplit_slash p with
  | Some (_, name) => name
  | None => p
  end.

(** * The file adapter *)
Module HDFAdapter.

(** Modelled from the spec: the [HDFAdapter] of [hdfadapter.py], which is
    not among the sources; only its uses by the wrapper are. The Frame
    Recorder's [open] "fails (returns false, does not raise)", its [close]
    is "safe to call when nothing is open", and the wrapper catches a
    [RuntimeError] of the write: opening and closing are total, writing may
    raise. *)
Class Ops (H : Type) : Type := {
  file_open : H -> bool;
  _set_file_path : string -> H -> H;
  _open_file : H -> H;
  _close_file : H -> H;
  _write_to_file : json -> M H unit
}.

(** Modelled from the spec: a Frame Recorder as section 4.5 describes it,
    standing in for the missing [hdfadapter.py] wherever a concrete adapter
    is needed. [opened] is the file handle: the path of the open file and
    its two columns. *)
Record Recorder : Type := {
  path : string;
  opened : option (string * (list Z * list Z))
}.

Definition grow (n : nat) (column : list Z) : list Z :=
  column ++ replicate (n - length column) 0.

Definition recorder_write (data : json) : M Recorder unit :=
  fun r =>
    match opened r with
    | None => (Raise (RuntimeError "file not open"), r)
    | Some (p, (adj, att)) =>
        match py_getitem data "frame_number", py_getitem data "adjustment",
              py_getitem data "attenuation" with
        | Ok (JInt n), Ok (JInt a), Ok (JInt t) =>
            if n <? 0 then (Raise (RuntimeError "negative frame number"), r)
            else
              let i := Z.to_nat n in
              (Ok tt,
               {| path := path r;
                  opened := Some (p, (<[i := a]> (grow (S i) adj),
                                      <[i := t]> (grow (S i) att))) |})
        | _, _, _ => (Raise (RuntimeError "not a frame record"), r)
        end
    end.

#[global] Instance recorder : Ops Recorder := {
  file_open r := bool_decide (opened r <> None);
  _set_file_path p r := {| path := p; opened := opened r |};
  _open_file r :=
    match opened r with
    | None => {| path := path r; opened := Some (path r, ([], [])) |}
    | Some _ => r
    end;
  _close_file r := {| path := path r; opened := None |};
  _write_to_file := recorder_write
}.

End HDFAdapter.

(** * The wrapper: [src/src/pmacfiltercontrol/pmacFilterControlWrapper.py] *)
Module Wrapper.

Definition SHUTTER_CLOSED : string := "CLOSED".
Definition SHUTTER_OPEN : string := "OPEN".

(** What a function decorated with [_if_connected] returns: [True] when the
    wrapper is not connected, else what the function returns. *)
Inductive guarded (A : Type) : Type :=
| ReturnedTrue
| Returned (a : A).
Arguments ReturnedTrue {A}.
Arguments Returned {A} a.

(** Where [_query_status] is suspended: at the sleep that ends a turn of
    its outer loop, or at the sleep inside [while not self.status_recv]. *)
Inductive poller_pc : Type :=
| Polling
| Reconnecting.

Section WithAdapter.
Context {H : Type} {adapter : HDFAdapter.Ops H}.

(** The fields of [self] the supervision logic touches. The records are
    held by their values ([timeout_rbv], [file_open], [file_close],
    [shutter]; numbers are integers), the status records by the log [sink]
    of their [set] calls; [sent] logs the documents handed to
    [zmq_stream.send_message], [stdout] the printed lines and
    [written_files] the files [write_autosave] wrote, each with the items
    it listed. [autosave_backup_file] is the backup path the clock gives. *)
Record Wrapper : Type := {
  connected : bool;
  status_recv : bool;
  h5f : H;
  timeout_rbv : Z;
  file_open : Z;
  file_close : Z;
  shutter : Z;
  sink : list (pv * sinkval);
  sent : list json;
  stdout : list string;
  device_name : string;
  _autosave_dict : list (string * Z);
  autosave_file : string;
  autosave_backup_file : string;
  written_files : list (string * list (string * Z))
}.

Definition set_connected (v : bool) (w : Wrapper) : Wrapper :=
  {| connected := v; status_recv := status_recv w; h5f := h5f w;
     timeout_rbv := timeout_rbv w; file_open := file_open w;
     file_close := file_close w; shutter := shutter w; sink := sink w;
     sent := sent w; stdout := stdout w; device_name := device_name w;
     _autosave_dict := _autosave_dict w; autosave_file := autosave_file w;
     autosave_backup_file := autosave_backup_file w;
     written_files := written_files w |}.

Definition set_status_recv (v : bool) (w : Wrapper) : Wrapper :=
  {| connected := connected w; status_recv := v; h5f := h5f w;
     timeout_rbv := timeout_rbv w; file_open := file_open w;
     file_close := file_close w; shutter := shutter w; sink := sink w;
     sent := sent w; stdout := stdout w; device_name := device_name w;
     _autosave_dict := _autosave_dict w; autosave_file := autosave_file w;
     autosave_backup_file := autosave_backup_file w;
     written_files := written_files w |}.

Definition set_h5f (v : H) (w : Wrapper) : Wrapper :=
  {| connected := connected w; status_recv := status_recv w; h5f := v;
     timeout_rbv := timeout_rbv w; file_open := file_open w;
     file_close := file_close w; shutter := shutter w; sink := sink w;
     sent := sent w; stdout := stdout w; device_name := device_name w;
     _autosave_dict := _autosave_dict w; autosave_file := autosave_file w;
     autosave_backup_file := autosave_backup_file w;
     written_files := written_files w |}.

Definition set_timeout_rbv (v : Z) (w : Wrapper) : Wrapper :=
  {| connected := connected w; status_recv := status_recv w; h5f := h5f w;
     timeout_rbv := v; file_open := file_open w; file_close := file_close w;
     shutter := shutter w; sink := sink w; sent := sent w;
     stdout := stdout w; device_name := device_name w;
     _autosave_dict := _autosave_dict w; autosave_file := autosave_file w;
     autosave_backup_file := autosave_backup_file w;
     written_files := written_files w |}.

Definition set_file_open (v : Z) (w : Wrapper) : Wrapper :=
  {| connected := connected w; status_recv := status_recv w; h5f := h5f w;
     timeout_rbv := timeout_rbv w; file_open := v;
     file_close := file_close w; shutter := shutter w; sink := sink w;
     sent := sent w; stdout := stdout w; device_name := device_name w;
     _autosave_dict := _autosave_dict w; autosave_file := autosave_file w;
     autosave_backup_file := autosave_backup_file w;
     written_files := written_files w |}.

Definition set_file_close (v : Z) (w : Wrapper) : Wrapper :=
  {| connected := connected w; status_recv := status_recv w; h5f := h5f w;
     timeout_rbv := timeout_rbv w; file_open := file_open w; file_close := v;
     shutter := shutter w; sink := sink w; sent := sent w;
     stdout := stdout w; device_name := device_name w;
     _autosave_dict := _autosave_dict w; autosave_file := autosave_file w;
     autosave_backup_file := autosave_backup_file w;
     written_files := written_files w |}.

Definition set_sink (v : list (pv * sinkval)) (w : Wrapper) : Wrapper :=
  {| connected := connected w; status_recv := status_recv w; h5f := h5f w;
     timeout_rbv := timeout_rbv w; file_open := file_open w;
     file_close := file_close w; shutter := shutter w; sink := v;
     sent := sent w; stdout := stdout w; device_name := device_name w;
     _autosave_dict := _autosave_dict w; autosave_file := autosave_file w;
     autosave_backup_file := autosave_backup_file w;
     written_files := written_files w |}.

Definition set_sent (v : list json) (w : Wrapper) : Wrapper :=
  {| connected := connected w; status_recv := status_recv w; h5f := h5f w;
     timeout_rbv := timeout_rbv w; file_open := file_open w;
     file_close := file_close w; shutter := shutter w; sink := sink w;
     sent := v; stdout := stdout w; device_name := device_name w;
     _autosave_dict := _autosave_dict w; autosave_file := autosave_file w;
     autosave_backup_file := autosave_backup_file w;
     written_files := written_files w |}.

Definition set_stdout (v : list string) (w : Wrapper) : Wrapper :=
  {| connected := connected w; status_recv := status_recv w; h5f := h5f w;
     timeout_rbv := timeout_rbv w; file_open := file_open w;
     file_close := file_close w; shutter := shutter w; sink := sink w;
     sent := sent w; stdout := v; device_name := device_name w;
     _autosave_dict := _autosave_dict w; autosave_file := autosave_file w;
     autosave_backup_file := autosave_backup_file w;
     written_files := written_files w |}.

Definition set_autosave_dict (v : list (string * Z)) (w : Wrapper) : Wrapper :=
  {| connected := connected w; status_recv := status_recv w; h5f := h5f w;
     timeout_rbv := timeout_rbv w; file_open := file_open w;
     file_close := file_close w; shutter := shutter w; sink := sink w;
     sent := sent w; stdout := stdout w; device_name := device_name w;
     _autosave_dict := v; autosave_file := autosave_file w;
     autosave_backup_file := autosave_backup_file w;
     written_files := written_files w |}.

Definition set_written_files (v : list (string * list (string * Z))) (w : Wrapper) : Wrapper :=
  {| connected := connected w; status_recv := status_recv w; h5f := h5f w;
     timeout_rbv := timeout_rbv w; file_open := file_open w;
     file_close := file_close w; shutter := shutter w; sink := sink w;
     sent := sent w; stdout := stdout w; device_name := device_name w;
     _autosave_dict := _autosave_dict w; autosave_file := autosave_file w;
     autosave_backup_file := autosave_backup_file w; written_files := v |}.

Definition print (line : string) : M Wrapper unit :=
  modify (fun w => set_stdout (stdout w ++ [line]) w).

Definition publish (r : pv) (v : sinkval) : M Wrapper unit :=
  modify (fun w => set_sink (sink w ++ [(r, v)]) w).

Definition _if_connected {A} (func : M Wrapper A) : M Wrapper (guarded A) :=
  w <- get ;;
  if negb (connected w) then
    print "Not connected to device. Try again once connection resumed." ;;;
    ret ReturnedTrue
  else
    a <- func ;;
    ret (Returned a).

Definition _send_message (message : json) : M Wrapper unit :=
  modify (fun w => set_sent (sent w ++ [message]) w).

Definition _req_status : M Wrapper unit :=
  _send_message (JDict [("command", JStr "status")]).

Definition _configure_param (param : list (string * json)) : M Wrapper unit :=
  _send_message (JDict [("command", JStr "configure"); ("params", JDict param)]).

Definition open_file (x : Z) : M Wrapper (guarded unit) :=
  _if_connected (
    (if x =? 1
     then modify (fun w => set_h5f (HDFAdapter._open_file (h5f w)) w)
     else ret tt) ;;;
    w <- get ;;
    if negb (file_close w =? 0) then modify (set_file_close 0) else ret tt).

Definition close_file (x : Z) : M Wrapper (guarded unit) :=
  _if_connected (
    (if x =? 1
     then modify (fun w => set_h5f (HDFAdapter._close_file (h5f w)) w)
     else ret tt) ;;;
    w <- get ;;
    if negb (file_open w =? 0) then modify (set_file_open 0) else ret tt).

(** One stretch of [_query_status] between two of its sleeps, started at
    [pc] with [running] the value of [self.zmq_stream.running]. *)
Definition _query_status (running : bool) (pc : poller_pc) : M Wrapper poller_pc :=
  match pc with
  | Polling =>
      if negb running then
        print "Zmq stream not running. waiting..." ;;;
        ret Polling
      else
        w <- get ;;
        if status_recv w then
          modify (set_status_recv false) ;;;
          _req_status ;;;
          ret Polling
        else
          print "No status response. Waiting for reconnect..." ;;;
          modify (set_connected false) ;;;
          ret Reconnecting
  | Reconnecting =>
      _req_status ;;;
      w <- get ;;
      if negb (status_recv w) then ret Reconnecting
      else
        print "Reconnected and status recieved." ;;;
        ret Polling
  end.

Definition _handle_status (status : json) : M Wrapper unit :=
  state <- lift (py_getitem status "state") ;;
  negative <- lift (py_lt state 0) ;;
  state <- (if negative then lift (py_add 16 state) else ret state) ;;
  publish STATE (Verbatim state) ;;;
  version <- lift (py_getitem status "version") ;;
  publish VERSION (Str version) ;;;
  process_duration <- lift (py_getitem status "process_duration") ;;
  publish PROCESS_DURATION (Verbatim process_duration) ;;;
  process_period <- lift (py_getitem status "process_period") ;;
  publish PROCESS_PERIOD (Verbatim process_period) ;;;
  last_received_frame <- lift (py_getitem status "last_received_frame") ;;
  publish FRAME_RECEIVED (Verbatim last_received_frame) ;;;
  last_processed_frame <- lift (py_getitem status "last_processed_frame") ;;
  publish FRAME_PROCESSED (Verbatim last_processed_frame) ;;;
  time_since_last_frame <- lift (py_getitem status "time_since_last_message") ;;
  publish FRAME_LAST_TIME (Verbatim time_since_last_frame) ;;;
  w <- get ;;
  timed_out <- lift (py_gt time_since_last_frame (timeout_rbv w)) ;;
  received <- (if timed_out then lift (py_gt last_received_frame 1) else ret false) ;;
  (if received then _ <- close_file 1 ;; ret tt else ret tt) ;;;
  current_attenuation <- lift (py_getitem status "current_attenuation") ;;
  publish ATTENUATION_RBV (Verbatim current_attenuation).

(** One turn of the loop of [monitor_command_stream]. *)
Definition monitor_command_turn (event : stream_event) : M Wrapper unit :=
  match event with
  | Down =>
      print "- Command stream disconnected. Waiting for reconnect..." ;;;
      print "- Command stream (re)connected."
  | Response None => ret tt
  | Response (Some resp) =>
      resp_json <- lift (json_loads resp) ;;
      has_status <- lift (py_contains "status" resp_json) ;;
      if has_status then
        w <- get ;;
        (if negb (connected w) then modify (set_connected true) else ret tt) ;;;
        status <- lift (py_getitem resp_json "status") ;;
        _handle_status status ;;;
        modify (set_status_recv true)
      else ret tt
  end.

(** The loop of [monitor_command_stream] over what the stream delivers. *)
Fixpoint monitor_command_stream (events : list stream_event) : M Wrapper unit :=
  match events with
  | [] => ret tt
  | event :: rest => monitor_command_turn event ;;; monitor_command_stream rest
  end.

(** [try: m except RuntimeError as e: h e] *)
Definition except_RuntimeError {A} (m : M Wrapper A) (h : string -> M Wrapper A)
  : M Wrapper A :=
  fun w =>
    match m w with
    | (Raise (RuntimeError msg), w') => h msg w'
    | r => r
    end.

(** [self.h5f._write_to_file(data)] *)
Definition write_to_file (data : json) : M Wrapper unit :=
  fun w =>
    let (r, h) := HDFAdapter._write_to_file data (h5f w) in
    (r, set_h5f h w).

(** One turn of the loop of [monitor_event_stream]. *)
Definition monitor_event_turn (event : stream_event) : M Wrapper unit :=
  match event with
  | Down =>
      print "- Event stream disconnected. Waiting for reconnect..." ;;;
      print "- Event stream (re)connected."
  | Response None => ret tt
  | Response (Some resp) =>
      resp_json <- lift (json_loads resp) ;;
      has_frame <- lift (py_contains "frame_number" resp_json) ;;
      if has_frame then
        w <- get ;;
        if HDFAdapter.file_open (h5f w) then
          except_RuntimeError (write_to_file resp_json) print
        else print "WARNING: HDF5 file not open and frame received."
      else ret tt
  end.

Fixpoint monitor_event_stream (events : list stream_event) : M Wrapper unit :=
  match events with
  | [] => ret tt
  | event :: rest => monitor_event_turn event ;;; monitor_event_stream rest
  end.

Definition write_autosave : M Wrapper unit :=
  w <- get ;;
  modify (fun w => set_written_files
            (written_files w ++ [(autosave_file w, _autosave_dict w)]) w) ;;;
  print ("Updated " +:+ path_name (autosave_file w) +:+ " with new positions.") ;;;
  modify (fun w => set_written_files
            (written_files w ++ [(autosave_backup_file w, _autosave_dict w)]) w) ;;;
  print ("Updated " +:+ path_name (autosave_backup_file w) +:+ " with new positions.").

(** [_set_shutter] is an [async def] under [_if_connected]: when connected
    the call only builds a coroutine, which [_set_shutter_pos] does not
    await, so the body (the [caput]) does not run. *)
Definition _set_shutter (shutter_state : string) : M Wrapper (guarded unit) :=
  _if_connected (ret tt).

Definition _set_shutter_pos (val : Z) (shutter_state : string) : M Wrapper unit :=
  (if String.eqb shutter_state SHUTTER_CLOSED
   then _configure_param [("shutter_closed_position", JInt val)]
   else ret tt) ;;;
  w <- get ;;
  let current_shutter_state := if shutter w =? 0 then "CLOSED" else "OPEN" in
  (if String.eqb current_shutter_state shutter_state
   then _ <- _set_shutter shutter_state ;; ret tt
   else ret tt) ;;;
  modify (fun w =>
    set_autosave_dict
      (dict_set (device_name w +:+ ":SHUTTER:" +:+ shutter_state) val
         (_autosave_dict w)) w) ;;;
  write_autosave.

Definition _set_timeout (timeout : Z) : M Wrapper (guarded unit) :=
  _if_connected (
    _configure_param [("timeout", JInt timeout)] ;;;
    modify (set_timeout_rbv timeout)).

(** A computation that leaves the connection flag as it found it. *)
Definition keeps_connected {A} (m : M Wrapper A) : Prop :=
  forall w, connected (snd (m w)) = connected w.

End WithAdapter.
Arguments Wrapper H : clear implicits.

(** The wrapper as [__init__] leaves it: not connected, no status request
    pending, a timeout of 3 s, no file open. The autosave dictionary is
    given empty: the entries [__init__] puts there, for the filter
    positions, the shutter positions and the thresholds, are left out, so
    a dictionary computed from [startup] shows the keys written since. *)
Definition startup : Wrapper HDFAdapter.Recorder :=
  {| connected := false; status_recv := true;
     h5f := {| HDFAdapter.path := "/data/attenuation.h5"; HDFAdapter.opened := None |};
     timeout_rbv := 3; file_open := 0; file_close := 0; shutter := 0;
     sink := []; sent := []; stdout := [];
     device_name := "PFC"; _autosave_dict := [];
     autosave_file := "/ioc/autosave.txt";
     autosave_backup_file := "/ioc/autosave-20240101-12.txt";
     written_files := [] |}.

(** Connected, with the attenuation file open. *)
Definition recording : Wrapper HDFAdapter.Recorder :=
  set_h5f (HDFAdapter._open_file (h5f startup)) (set_connected true startup).

End Wrapper.

(** A computation that leaves one field of the state as it found it. *)
Definition preserves {S A B} (field : S -> B) (m : M S A) : Prop :=
  forall s, field (snd (m s)) = field s.

(** * Runs of the supervision loops *)
Module Supervision.
Import Wrapper.

Section WithAdapter.
Context {H : Type} {adapter : HDFAdapter.Ops H}.

(** Successive stretches of [_query_status], the list giving what
    [self.zmq_stream.running] reads at the start of each. *)
Fixpoint poll_turns (runs : list bool) (pc : poller_pc) : M (Wrapper H) poller_pc :=
  match runs with
  | [] => ret pc
  | running :: rest => pc' <- _query_status running pc ;; poll_turns rest pc'
  end.

End WithAdapter.

(** The status request the poller sends. *)
Definition status_request : json := JDict [("command", JStr "status")].

(** The fields of [status_message 2 7 0]. *)
Definition sample_status : list (string * json) :=
  [("state", JInt 2); ("version", JInt 1);
   ("process_duration", JInt 12); ("process_period", JInt 50);
   ("last_received_frame", JInt 7); ("last_processed_frame", JInt 7);
   ("time_since_last_message", JInt 0); ("current_attenuation", JInt 3)].

(** Frame 5 with adjustment 1 and attenuation 7, as the event stream
    carries it. *)
Definition sample_frame : list (string * json) :=
  [("frame_number", JInt 5); ("adjustment", JInt 1); ("attenuation", JInt 7)].

End Supervision.

(** * The legacy wrapper's commands: [src/pmacFilterControlWrapper.py] *)
Module LegacyCommands.
Import Legacy.

#[global] Instance pv_eq_dec : EqDecision pv.
Proof. solve_decision. Defined.

(** The fields of [self] the commands use beside those of [Legacy.Wrapper]:
    the documents handed to [zmq_stream.send_message], the MODE_RBV and
    FILTER_SET_RBV records, the threshold dictionary, the position records
    of every filter set (each dictionary by its items, a record by the
    value its [get] returns), and the autosave file with the files written
    to it, each by its lines "key value". *)
Record Session : Type := {
  wrapper : Wrapper;
  sent : list json;
  mode_rbv : Z;
  filter_set_rbv : Z;
  pixel_count_thresholds : list (string * Z);
  filter_sets_in : list (string * list (string * Z));
  filter_sets_out : list (string * list (string * Z));
  device_name : string;
  autosave_path : string;
  saved : list (string * list (string * Z))
}.

Definition set_wrapper (v : Wrapper) (s : Session) : Session :=
  {| wrapper := v; sent := sent s; mode_rbv := mode_rbv s;
     filter_set_rbv := filter_set_rbv s;
     pixel_count_thresholds := pixel_count_thresholds s;
     filter_sets_in := filter_sets_in s; filter_sets_out := filter_sets_out s;
     device_name := device_name s; autosave_path := autosave_path s;
     saved := saved s |}.

Definition set_sent (v : list json) (s : Session) : Session :=
  {| wrapper := wrapper s; sent := v; mode_rbv := mode_rbv s;
     filter_set_rbv := filter_set_rbv s;
     pixel_count_thresholds := pixel_count_thresholds s;
     filter_sets_in := filter_sets_in s; filter_sets_out := filter_sets_out s;
     device_name := device_name s; autosave_path := autosave_path s;
     saved := saved s |}.

Definition set_mode_rbv (v : Z) (s : Session) : Session :=
  {| wrapper := wrapper s; sent := sent s; mode_rbv := v;
     filter_set_rbv := filter_set_rbv s;
     pixel_count_thresholds := pixel_count_thresholds s;
     filter_sets_in := filter_sets_in s; filter_sets_out := filter_sets_out s;
     device_name := device_name s; autosave_path := autosave_path s;
     saved := saved s |}.

Definition set_filter_set_rbv (v : Z) (s : Session) : Session :=
  {| wrapper := wrapper s; sent := sent s; mode_rbv := mode_rbv s;
     filter_set_rbv := v;
     pixel_count_thresholds := pixel_count_thresholds s;
     filter_sets_in := filter_sets_in s; filter_sets_out := filter_sets_out s;
     device_name := device_name s; autosave_path := autosave_path s;
     saved := saved s |}.

Definition set_pixel_count_thresholds (v : list (string * Z)) (s : Session) : Session :=
  {| wrapper := wrapper s; sent := sent s; mode_rbv := mode_rbv s;
     filter_set_rbv := filter_set_rbv s;
     pixel_count_thresholds := v;
     filter_sets_in := filter_sets_in s; filter_sets_out := filter_sets_out s;
     device_name := device_name s; autosave_path := autosave_path s;
     saved := saved s |}.

Definition set_saved (v : list (string * list (string * Z))) (s : Session) : Session :=
  {| wrapper := wrapper s; sent := sent s; mode_rbv := mode_rbv s;
     filter_set_rbv := filter_set_rbv s;
     pixel_count_thresholds := pixel_count_thresholds s;
     filter_sets_in := filter_sets_in s; filter_sets_out := filter_sets_out s;
     device_name := device_name s; autosave_path := autosave_path s;
     saved := v |}.

Definition set_connected (v : bool) (w : Wrapper) : Wrapper :=
  {| connected := v; status_recv := status_recv w; h5f := h5f w;
     file_path := file_path w; file_name := file_name w;
     file_full_name := file_full_name w; timeout_rbv := timeout_rbv w;
     sink := sink w; stdout := stdout w; os := os w |}.

Definition set_status_recv (v : bool) (w : Wrapper) : Wrapper :=
  {| connected := connected w; status_recv := v; h5f := h5f w;
     file_path := file_path w; file_name := file_name w;
     file_full_name := file_full_name w; timeout_rbv := timeout_rbv w;
     sink := sink w; stdout := stdout w; os := os w |}.

Definition set_timeout_rbv (v : Z) (w : Wrapper) : Wrapper :=
  {| connected := connected w; status_recv := status_recv w; h5f := h5f w;
     file_path := file_path w; file_name := file_name w;
     file_full_name := file_full_name w; timeout_rbv := v;
     sink := sink w; stdout := stdout w; os := os w |}.

Definition set_file_path (v : string) (w : Wrapper) : Wrapper :=
  {| connected := connected w; status_recv := status_recv w; h5f := h5f w;
     file_path := v; file_name := file_name w;
     file_full_name := file_full_name w; timeout_rbv := timeout_rbv w;
     sink := sink w; stdout := stdout w; os := os w |}.

Definition set_file_name (v : string) (w : Wrapper) : Wrapper :=
  {| connected := connected w; status_recv := status_recv w; h5f := h5f w;
     file_path := file_path w; file_name := v;
     file_full_name := file_full_name w; timeout_rbv := timeout_rbv w;
     sink := sink w; stdout := stdout w; os := os w |}.

(** A method of the part modelled in [Legacy], run on the whole of [self]. *)
Definition on_wrapper {A} (m : M Wrapper A) : M Session A :=
  fun s => let (r, w) := m (wrapper s) in (r, set_wrapper w s).

Definition print (line : string) : M Session unit :=
  on_wrapper (Legacy.print line).

Definition _if_connected {A} (func : M Session A) : M Session (Wrapper.guarded A) :=
  s <- get ;;
  if negb (connected (wrapper s)) then
    print "Not connected to device. Try again once connection resumed." ;;;
    ret Wrapper.ReturnedTrue
  else
    a <- func ;;
    ret (Wrapper.Returned a).

Definition _send_message (message : json) : M Session unit :=
  modify (fun s => set_sent (sent s ++ [message]) s).

(** [json.dumps({"command": "configure", "params": params})], encoded *)
Definition configure (params : list (string * json)) : json :=
  JDict [("command", JStr "configure"); ("params", JDict params)].

(** [record.get()] of a status record: the value of the last [set], and 0
    for a record that was never set. *)
Definition record_get (r : pv) (w : Wrapper) : sinkval :=
  default (Verbatim (JInt 0))
    (last (omap (fun entry => if decide (entry.1 = r) then Some entry.2 else None)
             (sink w))).

(** A computation that only ever sets status records satisfying [P]. *)
Definition sets_only (P : pv -> Prop) {A} (m : M Wrapper A) : Prop :=
  forall w, exists entries,
    sink (snd (m w)) = sink w ++ entries /\ Forall (fun entry => P entry.1) entries.

(** [value == z] for what a record holds *)
Definition value_is (v : sinkval) (z : Z) : bool :=
  match v with
  | Verbatim j =>
      match py_num j with
      | Some x => x =? z
      | None => false
      end
  | Str _ => false
  end.

(** In one turn of its loop the legacy poller goes as the later one does,
    but for its wait, which only sleeps. *)
Definition _query_status (running : bool) (pc : Wrapper.poller_pc)
  : M Session Wrapper.poller_pc :=
  match pc with
  | Wrapper.Polling =>
      if negb running then
        print "Zmq stream not running. waiting..." ;;;
        ret Wrapper.Polling
      else
        s <- get ;;
        if status_recv (wrapper s) then
          on_wrapper (modify (set_status_recv false)) ;;;
          _send_message (JDict [("command", JStr "status")]) ;;;
          ret Wrapper.Polling
        else
          print "No status response. Waiting for reconnect..." ;;;
          on_wrapper (modify (set_connected false)) ;;;
          ret Wrapper.Reconnecting
  | Wrapper.Reconnecting =>
      s <- get ;;
      if negb (status_recv (wrapper s)) then ret Wrapper.Reconnecting
      else
        print "Reconnected and status recieved." ;;;
        ret Wrapper.Polling
  end.

Fixpoint poll_turns (runs : list bool) (pc : Wrapper.poller_pc)
  : M Session Wrapper.poller_pc :=
  match runs with
  | [] => ret pc
  | running :: rest => pc' <- _query_status running pc ;; poll_turns rest pc'
  end.

Definition _set_mode (mode : Z) : M Session (Wrapper.guarded unit) :=
  _if_connected (
    _send_message (configure [("mode", JInt mode)]) ;;;
    modify (set_mode_rbv mode)).

Definition _set_manual_attenuation (attenuation : Z) : M Session (Wrapper.guarded unit) :=
  _if_connected (
    s <- get ;;
    if value_is (record_get STATE (wrapper s)) 0 && (mode_rbv s =? 0) then
      _send_message (configure [("attenuation", JInt attenuation)])
    else print "ERROR: Must be in MANUAL mode and IDLE state.").

Definition _reset (x : Z) : M Session (Wrapper.guarded unit) :=
  _if_connected (
    if x =? 1 then _send_message (JDict [("command", JStr "reset")]) else ret tt).

Definition _set_timeout (timeout : Z) : M Session (Wrapper.guarded unit) :=
  _if_connected (on_wrapper (modify (set_timeout_rbv timeout))).

Definition _clear_timeout (x : Z) : M Session (Wrapper.guarded unit) :=
  _if_connected (
    if x =? 1 then _send_message (JDict [("command", JStr "clear_timeout")])
    else ret tt).

Definition _start_singleshot (x : Z) : M Session (Wrapper.guarded unit) :=
  _if_connected (
    if x =? 1 then
      s <- get ;;
      if value_is (record_get STATE (wrapper s)) 1 && (mode_rbv s =? 2) then
        _send_message (JDict [("command", JStr "singleshot")])
      else print "ERROR: Must be in SINGLESHOT mode and WAITING state."
    else ret tt).

Definition _set_thresholds : M Session (Wrapper.guarded unit) :=
  _if_connected (
    s <- get ;;
    _send_message
      (configure [("pixel_count_thresholds",
                   JDict (map (fun item => (item.1, JInt item.2))
                            (pixel_count_thresholds s)))])).

(** [self.pixel_count_thresholds[key]] *)
Definition threshold_of (key : string) : M Session Z :=
  s <- get ;;
  match assoc key (pixel_count_thresholds s) with
  | Some v => ret v
  | None => raise (KeyError key)
  end.

(** The body the five threshold setters share: they differ in the key and
    in the line printed when the value is the current one, which
    [_set_extreme_high_threshold] does not have. *)
Definition set_threshold (key : string) (label : option string) (threshold : Z)
  : M Session (Wrapper.guarded unit) :=
  _if_connected (
    current <- threshold_of key ;;
    if negb (threshold =? current) then
      modify (fun s => set_pixel_count_thresholds
                (dict_set key threshold (pixel_count_thresholds s)) s) ;;;
      _ <- _set_thresholds ;;
      ret tt
    else
      match label with
      | Some name => print (name +:+ " is already at value " +:+ pretty threshold +:+ ".")
      | None => ret tt
      end).

Definition _set_extreme_high_threshold := set_threshold "high3" None.
Definition _set_upper_high_threshold := set_threshold "high2" (Some "High 2").
Definition _set_lower_high_threshold := set_threshold "high1" (Some "High 1").
Definition _set_upper_low_threshold := set_threshold "low2" (Some "Low 2").
Definition _set_lower_low_threshold := set_threshold "low1" (Some "Low 1").

(** The five setters, each with the key it writes. *)
Definition threshold_setters : list (string * (Z -> M Session (Wrapper.guarded unit))) :=
  [("high3", _set_extreme_high_threshold); ("high2", _set_upper_high_threshold);
   ("high1", _set_lower_high_threshold); ("low2", _set_upper_low_threshold);
   ("low1", _set_lower_low_threshold)].

(** [self.filter_sets_in[f"filter_set_{n}"]] and its like *)
Definition filter_set_of (sets : list (string * list (string * Z))) (name : string)
  : M Session (list (string * Z)) :=
  match assoc name sets with
  | Some records => ret records
  | None => raise (KeyError name)
  end.

(** The dictionary of positions [{"filter1": p1, "filter2": p2, ...}]; its
    keys differ from one another, so it lists them in the order of the
    records. *)
Definition positions (records : list (string * Z)) : json :=
  JDict (imap (fun id record => ("filter" +:+ pretty (S id), JInt record.2)) records).

Definition _set_filter_set (filter_set_num : Z) : M Session (Wrapper.guarded unit) :=
  _if_connected (
    s <- get ;;
    let name := "filter_set_" +:+ pretty (filter_set_num + 1) in
    in_records <- filter_set_of (filter_sets_in s) name ;;
    out_records <- filter_set_of (filter_sets_out s) name ;;
    _send_message
      (configure [("in_positions", positions in_records);
                  ("out_positions", positions out_records)]) ;;;
    modify (set_filter_set_rbv filter_set_num)).

(** The lines [_save_pos] writes: the in-positions of every filter set,
    then the out-positions. *)
Definition position_lines (s : Session) : list (string * Z) :=
  let line record := (device_name s +:+ ":" +:+ record.1, record.2) in
  flat_map (fun filter_set => map line filter_set.2) (filter_sets_in s)
  ++ flat_map (fun filter_set => map line filter_set.2) (filter_sets_out s).

Definition _save_pos : M Session unit :=
  modify (fun s => set_saved (saved s ++ [(autosave_path s, position_lines s)]) s) ;;;
  print "Updated autosave file with new positions.".

Definition _set_pos (filter_set : Z) (in_out : string) : M Session (Wrapper.guarded unit) :=
  _if_connected (
    s <- get ;;
    (if filter_set_rbv s =? filter_set - 1
     then _ <- _set_filter_set (filter_set - 1) ;; ret tt
     else ret tt) ;;;
    _save_pos).

Definition _set_file_path (path : string) : M Session (Wrapper.guarded unit) :=
  _if_connected (on_wrapper (_combine_file_path_and_name false)).

Definition _set_file_name (name : string) : M Session (Wrapper.guarded unit) :=
  _if_connected (on_wrapper (_combine_file_path_and_name false)).

(** The functions under [@_if_connected], with their arguments. *)
Inductive callback : Type :=
| SetMode (mode : Z)
| SetManualAttenuation (attenuation : Z)
| Reset (x : Z)
| SetTimeout (timeout : Z)
| ClearTimeout (x : Z)
| StartSingleshot (x : Z)
| SetThresholds
| SetExtremeHighThreshold (threshold : Z)
| SetUpperHighThreshold (threshold : Z)
| SetLowerHighThreshold (threshold : Z)
| SetUpperLowThreshold (threshold : Z)
| SetLowerLowThreshold (threshold : Z)
| SetFilterSet (filter_set_num : Z)
| SetPos (filter_set : Z) (in_out : string)
| SetFilePath (path : string)
| SetFileName (name : string).

Definition call (c : callback) : M Session (Wrapper.guarded unit) :=
  match c with
  | SetMode mode => _set_mode mode
  | SetManualAttenuation attenuation => _set_manual_attenuation attenuation
  | Reset x => _reset x
  | SetTimeout timeout => _set_timeout timeout
  | ClearTimeout x => _clear_timeout x
  | StartSingleshot x => _start_singleshot x
  | SetThresholds => _set_thresholds
  | SetExtremeHighThreshold threshold => _set_extreme_high_threshold threshold
  | SetUpperHighThreshold threshold => _set_upper_high_threshold threshold
  | SetLowerHighThreshold threshold => _set_lower_high_threshold threshold
  | SetUpperLowThreshold threshold => _set_upper_low_threshold threshold
  | SetLowerLowThreshold threshold => _set_lower_low_threshold threshold
  | SetFilterSet filter_set_num => _set_filter_set filter_set_num
  | SetPos filter_set in_out => _set_pos filter_set in_out
  | SetFilePath path => _set_file_path path
  | SetFileName name => _set_file_name name
  end.

(** A write to the FILE:NAME record: the record takes the value, then its
    [on_update], [_set_file_name], runs. *)
Definition put_file_name (name : string) : M Session (Wrapper.guarded unit) :=
  on_wrapper (modify (set_file_name name)) ;;;
  _set_file_name name.

(** The wrapper as [__init__] leaves it, for two filter sets of two
    filters each and no autosave file. *)
Definition startup : Session :=
  {| wrapper := Legacy.startup; sent := []; mode_rbv := 0; filter_set_rbv := 0;
     pixel_count_thresholds :=
       [("high1", 2); ("high2", 2); ("high3", 100); ("low1", 2); ("low2", 2)];
     filter_sets_in :=
       [("filter_set_1", [("FILTER_SET:1:IN:1", 100); ("FILTER_SET:1:IN:2", 100)]);
        ("filter_set_2", [("FILTER_SET:2:IN:1", 100); ("FILTER_SET:2:IN:2", 100)])];
     filter_sets_out :=
       [("filter_set_1", [("FILTER_SET:1:OUT:1", 0); ("FILTER_SET:1:OUT:2", 0)]);
        ("filter_set_2", [("FILTER_SET:2:OUT:1", 0); ("FILTER_SET:2:OUT:2", 0)])];
     device_name := "PFC"; autosave_path := "/ioc/autosave.txt"; saved := [] |}.

(** The same, once the first status reply has arrived. *)
Definition online : Session :=
  set_wrapper (set_connected true Legacy.startup) startup.

End LegacyCommands.

(** * Facts *)

Lemma bind_run {S A B} (m : M S A) (k : A -> M S B) s a s' :
  m s = (Ok a, s') -> bind m k s = k a s'.
Proof. unfold bind. intros ->. done. Qed.

(** ** The legacy recorder *)
Module LegacyProofs.
Import Legacy.


Lemma keys_differ : ADJUSTMENT_KEY <> ATTENUATION_KEY.
Proof. discriminate. Qed.

Ltac keys := first [exact keys_differ | exact (not_eq_sym keys_differ)].

Lemma wrap64_small z : in_int64 z = true -> wrap64 z = z.
Proof.
  unfold in_int64, wrap64, int64_min, int64_max. intros H.
  apply andb_true_iff in H as [H1 H2]. apply Z.leb_le in H1, H2.
  rewrite Z.mod_small; lia.
Qed.

Lemma wrap64_range z : in_int64 (wrap64 z) = true.
Proof.
  unfold in_int64, wrap64, int64_min, int64_max.
  pose proof (Z.mod_pos_bound (z + 2 ^ 63) (2 ^ 64) ltac:(lia)).
  apply andb_true_iff. split; apply Z.leb_le; lia.
Qed.

Lemma grow_size_ok fuel : forall s N r,
  in_int64 s = true ->
  grow_size fuel s N = Ok r ->
  (s <= N -> r = N + 1 /\ N < int64_max) /\ (N < s -> r = s).
Proof.
  induction fuel as [|fuel IH]; intros s N r Hs H; simpl in H.
  - destruct (Z.leb_spec s N); [discriminate|]. inversion H; subst. split; [lia | done].
  - destruct (Z.leb_spec s N) as [Hle|Hgt].
    + apply IH in H; [|apply wrap64_range]. split; [intros _ | lia].
      destruct (Z.eq_dec s int64_max) as [->|Hne].
      * exfalso. unfold in_int64 in Hs.
        assert (Hw : wrap64 (int64_max + 1) = int64_min) by reflexivity.
        rewrite Hw in H. destruct H as [H _].
        assert (int64_min <= N) by (unfold int64_min, int64_max in *; lia).
        specialize (H H0). unfold int64_max in *. lia.
      * assert (Hin : in_int64 (s + 1) = true).
        { unfold in_int64, int64_min, int64_max in *.
          apply andb_true_iff in Hs as [H1 H2]. apply Z.leb_le in H1, H2.
          apply andb_true_iff; split; apply Z.leb_le; lia. }
        rewrite (wrap64_small _ Hin) in H. destruct H as [Ha Hb].
        destruct (Z.eq_dec s N) as [->|HsN].
        -- rewrite Hb by lia. unfold in_int64, int64_max in *.
           apply andb_true_iff in Hin as [H1 H2]. apply Z.leb_le in H2. lia.
        -- apply Ha. lia.
    + inversion H; subst. split; [lia | done].
Qed.

(** From a frame number of [2^63 - 1] on, the loop never ends. *)
Lemma grow_size_never_ends fuel : forall s N,
  in_int64 s = true -> int64_max <= N -> grow_size fuel s N = Diverge.
Proof.
  induction fuel as [|fuel IH]; intros s N Hs HN; simpl;
    (destruct (Z.leb_spec s N) as [Hle|Hgt];
     [| unfold in_int64 in Hs; apply andb_true_iff in Hs as [_ Hs];
        apply Z.leb_le in Hs; lia]).
  - done.
  - apply IH; [apply wrap64_range | done].
Qed.

Lemma grow_size_done fuel s N : N < s -> grow_size fuel s N = Ok s.
Proof.
  intros H. destruct fuel; simpl; destruct (Z.leb_spec s N); (lia || done).
Qed.

Lemma grow_size_total fuel : forall s N,
  0 <= s <= N -> N < int64_max -> N - s < Z.of_nat fuel ->
  grow_size fuel s N = Ok (N + 1).
Proof.
  induction fuel as [|fuel IH]; intros s N Hs HN Hfuel; [lia|].
  simpl. destruct (Z.leb_spec s N); [|lia].
  rewrite wrap64_small.
  2:{ unfold in_int64, int64_min, int64_max in *.
      apply andb_true_iff; split; apply Z.leb_le; lia. }
  destruct (Z.eq_dec s N) as [->|Hne].
  - apply grow_size_done. lia.
  - apply IH; lia.
Qed.




Lemma open_state w f : h5f w = Some f -> w = set_h5f (Some f) w.
Proof. destruct w; simpl; intros ->; done. Qed.

Lemma the_file_run f w :
  the_file (set_h5f (Some f) w) = (Ok f, set_h5f (Some f) w).
Proof. done. Qed.

Lemma update_file_run g f w :
  update_file g (set_h5f (Some f) w) = (Ok tt, set_h5f (Some (g f)) w).
Proof. done. Qed.

Lemma get_dataset_run key f d w :
  datasets f !! key = Some d ->
  get_dataset key (set_h5f (Some f) w) = (Ok d, set_h5f (Some f) w).
Proof. intros H. unfold get_dataset. rewrite (bind_run _ _ _ _ _ (the_file_run f w)), H. done. Qed.


Lemma ensure_run key f w :
  (if bool_decide (datasets f !! key = None)
   then update_file (create_dataset key) else ret tt) (set_h5f (Some f) w)
  = (Ok tt, set_h5f (Some (ensured key f)) w).
Proof.
  unfold ensured, effective. case_bool_decide as H.
  - rewrite update_file_run, H. done.
  - destruct (datasets f !! key) as [d|] eqn:E; [|done].
    simpl. rewrite insert_id by done. destruct f; done.
Qed.

Lemma effective_ensured_ne key key' f :
  key <> key' -> effective (ensured key f) key' = effective f key'.
Proof. intros H. unfold effective, ensured. simpl. by rewrite lookup_insert_ne. Qed.

Lemma setitem_run key i v f d d' w :
  datasets f !! key = Some d ->
  dset_setitem i v d = Ok d' ->
  setitem_dataset key i v (set_h5f (Some f) w)
  = (Ok tt, set_h5f (Some {| filename := filename f;
                             datasets := <[key := d']> (datasets f) |}) w).
Proof.
  intros H1 H2. unfold setitem_dataset.
  rewrite (bind_run _ _ _ _ _ (get_dataset_run key f d w H1)).
  unfold lift at 1. unfold bind at 1. rewrite H2. apply update_file_run.
Qed.

Lemma dset_setitem_ok i v d :
  in_int64 v = true -> 0 <= i < Z.of_nat (length d) ->
  dset_setitem i v d = Ok (<[Z.to_nat i := v]> d).
Proof.
  intros Hv Hi. unfold dset_setitem. rewrite Hv. simpl.
  destruct (Z.ltb_spec i 0); [lia|].
  destruct (Z.leb_spec 0 i); [|lia].
  destruct (Z.ltb_spec i (Z.of_nat (length d))); [done | lia].
Qed.

Lemma resize_grow n d :
  (length d <= Z.to_nat n)%nat ->
  resize n d = d ++ replicate (Z.to_nat n - length d) 0.
Proof. intros H. unfold resize. by rewrite take_ge. Qed.

Lemma write_total fuel data w f :
  h5f w = Some f ->
  length (effective f ADJUSTMENT_KEY) = length (effective f ATTENUATION_KEY) ->
  Z.of_nat (length (effective f ADJUSTMENT_KEY)) <= int64_max ->
  0 <= frame_number data < int64_max ->
  frame_number data < Z.of_nat fuel ->
  in_int64 (adjustment data) = true ->
  in_int64 (attenuation data) = true ->
  exists w',
    _write_to_hdf5 fuel data w = (Ok tt, w') /\
    columns w' =
      Some (written (adjustment data) (Z.to_nat (frame_number data)) (effective f ADJUSTMENT_KEY),
            written (attenuation data) (Z.to_nat (frame_number data)) (effective f ATTENUATION_KEY)).
Proof.
  intros Hf Hlen Hmax HN Hfuel Ha Ht.
  rewrite (open_state w f Hf). unfold _write_to_hdf5.
  rewrite (bind_run _ _ _ _ _ (the_file_run _ _)).
  rewrite (bind_run _ _ _ _ _ (ensure_run _ _ _)).
  rewrite (bind_run _ _ _ _ _ (the_file_run _ _)).
  rewrite (bind_run _ _ _ _ _ (ensure_run _ _ _)).
  set (adj := effective f ADJUSTMENT_KEY) in *.
  set (att := effective f ATTENUATION_KEY) in *.
  set (f2 := ensured ATTENUATION_KEY (ensured ADJUSTMENT_KEY f)).
  assert (Hadj : datasets f2 !! ADJUSTMENT_KEY = Some adj).
  { unfold f2, ensured. simpl. rewrite lookup_insert_ne by keys.
    by rewrite lookup_insert_eq. }
  assert (Hatt : datasets f2 !! ATTENUATION_KEY = Some att).
  { unfold f2. unfold ensured at 1. simpl. rewrite lookup_insert_eq.
    by rewrite effective_ensured_ne by keys. }
  clearbody f2.
  rewrite (bind_run _ _ _ _ _ (get_dataset_run _ _ _ _ Hadj)).
  rewrite (bind_run _ _ _ _ _ (get_dataset_run _ _ _ _ Hatt)).
  rewrite bool_decide_eq_true_2 by done.
  unfold ret at 1. unfold bind at 1.
  set (n := Z.to_nat (frame_number data)).
  assert (exists f3,
    (if Z.of_nat (length adj) <=? frame_number data
     then
       dset_size <- lift (grow_size fuel (Z.of_nat (length adj)) (frame_number data)) ;;
       update_file (resize_dataset ADJUSTMENT_KEY dset_size) ;;;
       update_file (resize_dataset ATTENUATION_KEY dset_size)
     else ret tt) (set_h5f (Some f2) w) = (Ok tt, set_h5f (Some f3) w) /\
    datasets f3 !! ADJUSTMENT_KEY = Some (adj ++ replicate (S n - length adj) 0) /\
    datasets f3 !! ATTENUATION_KEY = Some (att ++ replicate (S n - length att) 0))
    as (f3 & Hrun & Hadj3 & Hatt3).
  { destruct (Z.leb_spec (Z.of_nat (length adj)) (frame_number data)) as [Hle|Hgt].
    - rewrite grow_size_total by lia.
      unfold lift at 1. unfold bind at 1.
      rewrite (bind_run _ _ _ _ _ (update_file_run _ _ _)), update_file_run.
      eexists. split; [reflexivity|]. simpl.
      rewrite lookup_alter_ne by keys.
      rewrite !lookup_alter_eq, Hadj.
      rewrite lookup_alter_ne by keys.
      rewrite Hatt. simpl.
      replace (Z.to_nat (frame_number data + 1)) with (S n) by lia.
      rewrite !resize_grow by lia. replace (Z.to_nat (frame_number data + 1)) with (S n) by lia.
      done.
    - exists f2. split; [done|].
      replace (S n - length adj)%nat with 0%nat by lia.
      replace (S n - length att)%nat with 0%nat by lia.
      simpl. by rewrite !app_nil_r. }
  rewrite (bind_run _ _ _ _ _ Hrun).
  assert (Hn : (n < length (adj ++ replicate (S n - length adj) 0%Z))%nat)
    by (rewrite length_app, length_replicate; lia).
  assert (Hn' : (n < length (att ++ replicate (S n - length att) 0%Z))%nat)
    by (rewrite length_app, length_replicate; lia).
  erewrite bind_run.
  2:{ eapply setitem_run; [exact Hadj3|]. apply dset_setitem_ok; [done | lia]. }
  erewrite setitem_run.
  2:{ simpl. rewrite lookup_insert_ne by keys. exact Hatt3. }
  2:{ apply dset_setitem_ok; [done | lia]. }
  eexists. split; [reflexivity|].
  unfold columns. simpl.
  rewrite lookup_insert_ne by keys.
  rewrite !lookup_insert_eq. done.
Qed.


Lemma columns_open w adj att :
  columns w = Some (adj, att) ->
  length adj = length att -> Z.of_nat (length adj) <= int64_max ->
  OpenTable w adj att.
Proof.
  unfold columns, OpenTable, effective. intros H Hl Hm.
  destruct (h5f w) as [f|]; [|done]. exists f.
  destruct (datasets f !! ADJUSTMENT_KEY), (datasets f !! ATTENUATION_KEY); try done.
  inversion H; subst. done.
Qed.

Lemma length_written v n d :
  length (written v n d) = (length d `max` S n)%nat.
Proof. unfold written. rewrite length_insert, length_app, length_replicate. lia. Qed.

Lemma lookup_written_eq v n d : written v n d !! n = Some v.
Proof.
  unfold written. apply list_lookup_insert_eq.
  rewrite length_app, length_replicate. lia.
Qed.

Lemma lookup_written_ne v n d i :
  i <> n -> (i < length (written v n d))%nat ->
  written v n d !! i = Some (default 0 (d !! i)).
Proof.
  intros Hne Hi. rewrite length_written in Hi. unfold written.
  rewrite list_lookup_insert_ne by done.
  destruct (decide (i < length d)%nat) as [Hlt|Hge].
  - rewrite lookup_app_l by done.
    destruct (lookup_lt_is_Some_2 d i Hlt) as [x ->]. done.
  - rewrite lookup_app_r by lia. rewrite (lookup_ge_None_2 d i) by lia.
    simpl. apply lookup_replicate_2. lia.
Qed.

Lemma written_inside v n d :
  (n < length d)%nat -> written v n d = <[n := v]> d.
Proof.
  intros H. unfold written. replace (S n - length d)%nat with 0%nat by lia.
  simpl. by rewrite app_nil_r.
Qed.

Lemma write_step fuel data w adj att :
  OpenTable w adj att -> WellFormed fuel data ->
  let n := Z.to_nat (frame_number data) in
  exists w',
    _write_to_hdf5 fuel data w = (Ok tt, w') /\
    columns w' = Some (written (adjustment data) n adj, written (attenuation data) n att) /\
    OpenTable w' (written (adjustment data) n adj) (written (attenuation data) n att).
Proof.
  intros (f & Hf & <- & <- & Hlen & Hmax) (HN & Hfuel & Ha & Ht) n.
  destruct (write_total fuel data w f Hf Hlen Hmax HN Hfuel Ha Ht) as (w' & Hrun & Hcols).
  exists w'. split; [done|]. split; [done|].
  apply columns_open; [done | |]; rewrite !length_written; lia.
Qed.

Lemma write_frames_app fuel pre post w wp :
  write_frames fuel pre w = (Ok tt, wp) ->
  write_frames fuel (pre ++ post) w = write_frames fuel post wp.
Proof.
  revert w. induction pre as [|d pre IH]; intros w H; simpl in *.
  - unfold ret in H. by inversion H.
  - unfold bind in *. destruct (_write_to_hdf5 fuel d w) as [[[]| |] w1]; try done.
    by apply IH.
Qed.

Lemma write_frames_spec fuel frames : forall w adj att,
  OpenTable w adj att -> Forall (WellFormed fuel) frames ->
  exists w' adj' att',
    write_frames fuel frames w = (Ok tt, w') /\
    OpenTable w' adj' att' /\
    (length adj <= length adj')%nat /\
    (forall i, (i < length adj')%nat ->
       (forall d, d ∈ frames -> frame_number d <> Z.of_nat i) ->
       adj' !! i = Some (default 0 (adj !! i)) /\
       att' !! i = Some (default 0 (att !! i))).
Proof.
  induction frames as [|d frames IH]; intros w adj att Hopen Hwf.
  - exists w, adj, att. split; [done|]. split; [done|]. split; [done|].
    intros i Hi _. destruct Hopen as (_ & _ & _ & _ & Hl & _).
    destruct (lookup_lt_is_Some_2 adj i Hi) as [x ->].
    destruct (lookup_lt_is_Some_2 att i ltac:(lia)) as [y ->]. done.
  - apply Forall_cons in Hwf as [Hd Hwf].
    destruct (write_step fuel d w adj att Hopen Hd) as (w1 & Hrun & _ & Hopen1).
    destruct (IH _ _ _ Hopen1 Hwf) as (w' & adj' & att' & Hrun' & Hopen' & Hlen' & Hslots).
    exists w', adj', att'. split.
    { simpl. by rewrite (bind_run _ _ _ _ _ Hrun). }
    split; [done|]. rewrite length_written in Hlen'. split; [lia|].
    intros i Hi Hnot.
    destruct (Hslots i Hi) as [H1 H2].
    { intros d' Hd'. apply Hnot. by right. }
    assert (Hne : i <> Z.to_nat (frame_number d)).
    { intros ->. apply (Hnot d); [by left|]. destruct Hd as [? _]. lia. }
    rewrite H1, H2.
    destruct Hopen as (_ & _ & _ & _ & Hl & _).
    destruct (decide (i < length (written (adjustment d) (Z.to_nat (frame_number d)) adj))%nat) as [Hlt|Hge].
    + rewrite !lookup_written_ne; [done | done | | done | done].
      rewrite length_written in *. lia.
    + rewrite !(lookup_ge_None_2 (written _ _ _)); rewrite ?length_written in *; [|lia|lia].
      rewrite !lookup_ge_None_2 by lia. done.
Qed.

Lemma open_fresh w f :
  h5f w = Some f -> datasets f = ∅ ->
  OpenTable w (replicate 128 0) (replicate 128 0).
Proof.
  intros Hf He. exists f. unfold effective. rewrite He, !lookup_empty. simpl.
  repeat split; try done; unfold int64_max; lia.
Qed.

(** C1. For every sequence of well-formed frame writes to a freshly opened
    file, the writes all succeed, and after the write of the record with
    frame number N the two columns have one length, at least N + 1; every
    slot no record of the sequence addressed reads zero in both columns;
    and the write did not shrink the columns it found. *)
Theorem write_grows_table_and_fills_gaps fuel w0 f0 pre data :
  h5f w0 = Some f0 -> datasets f0 = ∅ ->
  Forall (WellFormed fuel) (pre ++ [data]) ->
  exists wp w1 adj att,
    write_frames fuel pre w0 = (Ok tt, wp) /\
    _write_to_hdf5 fuel data wp = (Ok tt, w1) /\
    write_frames fuel (pre ++ [data]) w0 = (Ok tt, w1) /\
    columns w1 = Some (adj, att) /\
    length adj = length att /\
    frame_number data + 1 <= Z.of_nat (length adj) /\
    (forall i, (i < length adj)%nat ->
       (forall d, d ∈ pre ++ [data] -> frame_number d <> Z.of_nat i) ->
       adj !! i = Some 0 /\ att !! i = Some 0) /\
    (forall a b, columns wp = Some (a, b) ->
       (length a <= length adj)%nat /\ (length b <= length att)%nat).
Proof.
  intros Hf He Hwf. apply Forall_app in Hwf as [Hpre Hdata].
  apply Forall_inv in Hdata.
  pose proof (open_fresh w0 f0 Hf He) as Hopen.
  destruct (write_frames_spec fuel pre _ _ _ Hopen Hpre)
    as (wp & adjp & attp & Hrunp & Hopenp & Hlenp & Hslots).
  destruct (write_step fuel data wp adjp attp Hopenp Hdata) as (w1 & Hrun & Hcols & Hopen1).
  exists wp, w1. eexists _, _.
  split; [done|]. split; [done|].
  split. { rewrite (write_frames_app _ _ _ _ _ Hrunp). simpl.
           rewrite (bind_run _ _ _ _ _ Hrun). done. }
  split; [done|].
  destruct Hopenp as (fp & Hfp & Hadjp & Hattp & Hl & Hm).
  rewrite !length_written. destruct Hdata as [HN _].
  split; [lia|]. split; [lia|]. split.
  - intros i Hi Hnot.
    assert (Hne : i <> Z.to_nat (frame_number data)).
    { intros ->. apply (Hnot data); [apply elem_of_app; right; by left | lia]. }
    rewrite !lookup_written_ne; [| done | rewrite length_written; lia | done | rewrite length_written; lia].
    destruct (decide (i < length adjp)%nat) as [Hlt|Hge].
    + destruct (Hslots i Hlt) as [-> ->].
      { intros d Hd. apply Hnot. apply elem_of_app. by left. }
      assert (Hz : default 0 (replicate 128 0 !! i) = 0).
      { destruct (replicate 128 0 !! i) as [x|] eqn:E; [|done].
        by apply lookup_replicate in E as [-> _]. }
      cbn [default]. rewrite Hz. done.
    + rewrite !lookup_ge_None_2 by lia. done.
  - intros a b Hab. unfold columns in Hab. rewrite Hfp in Hab.
    unfold effective in Hadjp, Hattp.
    destruct (datasets fp !! ADJUSTMENT_KEY), (datasets fp !! ATTENUATION_KEY); try done.
    simpl in *. inversion Hab; subst. lia.
Qed.

Lemma write_grows_table_and_fills_gaps_witness :
  exists wp w1 adj att,
    write_frames 200 [frame 3 1 7; frame 130 (-1) 6] recording = (Ok tt, wp) /\
    _write_to_hdf5 200 (frame 1 2 8) wp = (Ok tt, w1) /\
    write_frames 200 ([frame 3 1 7; frame 130 (-1) 6] ++ [frame 1 2 8]) recording = (Ok tt, w1) /\
    columns w1 = Some (adj, att) /\
    length adj = length att /\
    frame_number (frame 1 2 8) + 1 <= Z.of_nat (length adj) /\
    (forall i, (i < length adj)%nat ->
       (forall d, d ∈ [frame 3 1 7; frame 130 (-1) 6] ++ [frame 1 2 8] ->
          frame_number d <> Z.of_nat i) ->
       adj !! i = Some 0 /\ att !! i = Some 0) /\
    (forall a b, columns wp = Some (a, b) ->
       (length a <= length adj)%nat /\ (length b <= length att)%nat).
Proof.
  apply (write_grows_table_and_fills_gaps 200 recording
           {| filename := "/data/tmp.h5"; datasets := ∅ |}).
  - reflexivity.
  - reflexivity.
  - repeat constructor; simpl; unfold int64_max; lia.
Defined.

(** C9. A write to an open table reads back at its frame number, keeps
    every other slot and never shortens a column; below the current length
    it changes that one slot only; and a second write to the same frame
    number replaces the value of the first, again touching nothing else. *)
Theorem later_write_wins_in_place fuel w adj att data :
  OpenTable w adj att -> WellFormed fuel data ->
  let n := Z.to_nat (frame_number data) in
  exists w' adj' att',
    _write_to_hdf5 fuel data w = (Ok tt, w') /\
    columns w' = Some (adj', att') /\
    adj' !! n = Some (adjustment data) /\ att' !! n = Some (attenuation data) /\
    (length adj <= length adj')%nat /\ (length att <= length att')%nat /\
    (forall i, i <> n -> (i < length adj)%nat ->
       adj' !! i = adj !! i /\ att' !! i = att !! i) /\
    ((n < length adj)%nat ->
       length adj' = length adj /\ length att' = length att) /\
    (forall later, WellFormed fuel later ->
       frame_number later = frame_number data ->
       exists w2 adj2 att2,
         _write_to_hdf5 fuel later w' = (Ok tt, w2) /\
         columns w2 = Some (adj2, att2) /\
         adj2 !! n = Some (adjustment later) /\
         att2 !! n = Some (attenuation later) /\
         length adj2 = length adj' /\ length att2 = length att' /\
         forall i, i <> n -> adj2 !! i = adj' !! i /\ att2 !! i = att' !! i).
Proof.
  intros Hopen Hwf n.
  destruct (write_step fuel data w adj att Hopen Hwf) as (w' & Hrun & Hcols & Hopen').
  fold n in Hcols, Hopen'.
  assert (Hl : length adj = length att) by (by destruct Hopen as (_ & _ & _ & _ & ? & _)).
  exists w'. eexists _, _. split; [done|]. split; [done|].
  rewrite !lookup_written_eq, !length_written.
  split; [done|]. split; [done|]. split; [lia|]. split; [lia|]. split; [|split].
  - intros i Hne Hi.
    rewrite !lookup_written_ne by (rewrite ?length_written; lia || done).
    destruct (lookup_lt_is_Some_2 adj i Hi) as [x ->].
    destruct (lookup_lt_is_Some_2 att i ltac:(lia)) as [y ->]. done.
  - lia.
  - intros later Hlater Hsame.
    destruct (write_step fuel later w' _ _ Hopen' Hlater) as (w2 & Hrun2 & Hcols2 & _).
    rewrite Hsame in Hcols2. fold n in Hcols2.
    exists w2. eexists _, _. split; [done|]. split; [done|].
    rewrite !lookup_written_eq.
    rewrite !(written_inside _ n (written _ n _)) by (rewrite length_written; lia).
    rewrite !length_insert. repeat split; try done.
    1,2: apply length_written.
    all: by rewrite list_lookup_insert_ne.
Qed.

Lemma later_write_wins_in_place_witness :
  exists w' adj' att',
    _write_to_hdf5 200 (frame 5 1 7) recording = (Ok tt, w') /\
    columns w' = Some (adj', att') /\
    adj' !! 5%nat = Some 1 /\ att' !! 5%nat = Some 7 /\
    (128 <= length adj')%nat /\ (128 <= length att')%nat /\
    (forall i, i <> 5%nat -> (i < 128)%nat ->
       adj' !! i = replicate 128 0 !! i /\ att' !! i = replicate 128 0 !! i) /\
    ((5 < 128)%nat -> length adj' = 128%nat /\ length att' = 128%nat) /\
    (forall later, WellFormed 200 later ->
       frame_number later = 5 ->
       exists w2 adj2 att2,
         _write_to_hdf5 200 later w' = (Ok tt, w2) /\
         columns w2 = Some (adj2, att2) /\
         adj2 !! 5%nat = Some (adjustment later) /\
         att2 !! 5%nat = Some (attenuation later) /\
         length adj2 = length adj' /\ length att2 = length att' /\
         forall i, i <> 5%nat -> adj2 !! i = adj' !! i /\ att2 !! i = att' !! i).
Proof.
  apply (later_write_wins_in_place 200 recording (replicate 128 0) (replicate 128 0)
           (frame 5 1 7)).
  - apply (open_fresh recording {| filename := "/data/tmp.h5"; datasets := ∅ |});
      reflexivity.
  - repeat split; simpl; unfold int64_max; lia.
Defined.

(** C7. With a file open, opening while the configured full name differs
    from the open file's name returns [False] without raising; the wrapper
    only gains a printed line, so the open file and its datasets stay as
    they were. *)
Theorem open_second_file_rejected w f :
  h5f w = Some f ->
  file_full_name w <> filename f ->
  _open_file w
  = (Ok false,
     set_stdout (stdout w ++ ["Another file is already open and being written to."]) w) /\
  h5f (snd (_open_file w)) = Some f.
Proof.
  intros Hf Hne. unfold _open_file, bind, get. rewrite Hf.
  apply String.eqb_neq in Hne. rewrite Hne. simpl. done.
Qed.

Lemma open_second_file_rejected_witness :
  _open_file (set_file_full_name "/data/other.h5" recording)
  = (Ok false,
     set_stdout (stdout (set_file_full_name "/data/other.h5" recording)
                 ++ ["Another file is already open and being written to."])
       (set_file_full_name "/data/other.h5" recording)) /\
  h5f (snd (_open_file (set_file_full_name "/data/other.h5" recording)))
  = Some {| filename := "/data/tmp.h5"; datasets := ∅ |}.
Proof.
  apply (open_second_file_rejected (set_file_full_name "/data/other.h5" recording)
           {| filename := "/data/tmp.h5"; datasets := ∅ |}).
  - reflexivity.
  - simpl. discriminate.
Defined.

(** C8 as stated fails: with no file open, [_close_file] raises. *)
Lemma close_without_file_raises :
  h5f startup = None /\ _close_file startup = (Raise AssertionError, startup).
Proof. split; reflexivity. Qed.

Ltac unfold_monad :=
  unfold bind, lift, ret, raise, get, modify, try_except in *.

Ltac present Hkeys key :=
  let v := fresh "v" in
  let E := fresh "E" in
  destruct (Hkeys key _ ltac:(repeat first [apply list_elem_of_here | apply list_elem_of_further]))
    as [v E].

(** What the legacy handler does to [self] for a status dictionary with
    the eight keys: the eight records are set to what the dictionary holds,
    the version as its [str], the file is released if the elapsed time
    exceeds the timeout, and nothing else changes. *)
Lemma legacy_status_run w items elapsed :
  (forall key r, (key, r) ∈ status_fields -> is_Some (assoc key items)) ->
  assoc "time_since_last_message" items = Some (JInt elapsed) ->
  let value key := default JNull (assoc key items) in
  _handle_status (JDict items) w
  = (Ok tt,
     set_h5f (if timeout_rbv w <? elapsed then None else h5f w)
       (set_sink
          (sink w ++
           [(STATE, Verbatim (value "state")); (VERSION, Str (value "version"));
            (PROCESS_DURATION, Verbatim (value "process_duration"));
            (PROCESS_PERIOD, Verbatim (value "process_period"));
            (FRAME_RECEIVED, Verbatim (value "last_received_frame"));
            (FRAME_PROCESSED, Verbatim (value "last_processed_frame"));
            (FRAME_LAST_TIME, Verbatim (value "time_since_last_message"));
            (ATTENUATION_RBV, Verbatim (value "current_attenuation"))]) w)).
Proof.
  intros Hkeys Htime value. subst value.
  present Hkeys "state". present Hkeys "version".
  present Hkeys "process_duration". present Hkeys "process_period".
  present Hkeys "last_received_frame". present Hkeys "last_processed_frame".
  present Hkeys "current_attenuation". clear Hkeys.
  destruct w as [c sr h fp fn ffn t sk out o].
  unfold _handle_status, py_getitem.
  rewrite Htime.
  repeat match goal with E : assoc _ _ = Some _ |- _ => rewrite E; clear E end.
  unfold py_gt, py_num, publish, print, _close_file, the_file. unfold_monad.
  simpl.
  destruct (t <? elapsed), h as [f|]; simpl; rewrite <- ?app_assoc; reflexivity.
Qed.

(** C8, amended. [_close_file] releases an open file and raises
    [AssertionError], changing nothing, when none is open. The status
    handler calls it only with a file open: for a status dictionary with
    the eight keys it returns in the state [w'] that differs from the one
    it found by the eight records set and by the file, which is released
    once the elapsed time exceeds the timeout and kept otherwise. Nothing
    is printed, so the handler of the exception, which prints, has not run:
    no call of [_close_file] has raised, whether a file was open or not.
    Handling the same status again, after the close, sets the eight
    records once more and changes nothing else. *)
Theorem close_is_guarded_by_the_handler w items elapsed :
  (forall key r, (key, r) ∈ status_fields -> is_Some (assoc key items)) ->
  assoc "time_since_last_message" items = Some (JInt elapsed) ->
  let value key := default JNull (assoc key items) in
  let entries :=
    [(STATE, Verbatim (value "state")); (VERSION, Str (value "version"));
     (PROCESS_DURATION, Verbatim (value "process_duration"));
     (PROCESS_PERIOD, Verbatim (value "process_period"));
     (FRAME_RECEIVED, Verbatim (value "last_received_frame"));
     (FRAME_PROCESSED, Verbatim (value "last_processed_frame"));
     (FRAME_LAST_TIME, Verbatim (value "time_since_last_message"));
     (ATTENUATION_RBV, Verbatim (value "current_attenuation"))] in
  let w' := set_h5f (if timeout_rbv w <? elapsed then None else h5f w)
              (set_sink (sink w ++ entries) w) in
  _close_file w
  = match h5f w with
    | Some _ => (Ok tt, set_h5f None w)
    | None => (Raise AssertionError, w)
    end /\
  _handle_status (JDict items) w = (Ok tt, w') /\
  stdout w' = stdout w /\
  _handle_status (JDict items) w' = (Ok tt, set_sink (sink w' ++ entries) w').
Proof.
  intros Hkeys Htime value entries w'. split.
  { unfold _close_file, bind, the_file. by destruct (h5f w). }
  split; [exact (legacy_status_run w items elapsed Hkeys Htime)|].
  split; [done|].
  rewrite (legacy_status_run w' items elapsed Hkeys Htime).
  fold value. fold entries. f_equal.
  subst w'. destruct w as [c sr h fp fn ffn t sk out o].
  simpl. by destruct (t <? elapsed).
Qed.

(** C8 on the open file of [recording], 10 s after the last frame with a
    timeout of 3 s: the first status closes the file, the second finds
    none open, and neither prints. *)
Lemma close_is_guarded_by_the_handler_witness :
  _close_file recording = (Ok tt, set_h5f None recording) /\
  _handle_status (status_message 2 7 10) recording
  = (Ok tt, set_h5f None
              (set_sink [(STATE, Verbatim (JInt 2)); (VERSION, Str (JInt 1));
                         (PROCESS_DURATION, Verbatim (JInt 12));
                         (PROCESS_PERIOD, Verbatim (JInt 50));
                         (FRAME_RECEIVED, Verbatim (JInt 7));
                         (FRAME_PROCESSED, Verbatim (JInt 7));
                         (FRAME_LAST_TIME, Verbatim (JInt 10));
                         (ATTENUATION_RBV, Verbatim (JInt 3))] recording)) /\
  stdout (snd (_handle_status (status_message 2 7 10) recording)) = stdout recording /\
  fst (_handle_status (status_message 2 7 10)
         (snd (_handle_status (status_message 2 7 10) recording))) = Ok tt /\
  stdout (snd (_handle_status (status_message 2 7 10)
                 (snd (_handle_status (status_message 2 7 10) recording))))
  = stdout recording.
Proof.
  pose proof (close_is_guarded_by_the_handler recording
                [("state", JInt 2); ("version", JInt 1);
                 ("process_duration", JInt 12); ("process_period", JInt 50);
                 ("last_received_frame", JInt 7); ("last_processed_frame", JInt 7);
                 ("time_since_last_message", JInt 10); ("current_attenuation", JInt 3)]
                10) as Hclose.
  destruct Hclose as (Hc & Hrun & Hout & Hagain).
  - intros key r Hin. unfold status_fields in Hin.
    repeat (apply elem_of_cons in Hin as [Hin|Hin];
            [injection Hin as -> _; simpl; eauto|]).
    by apply elem_of_nil in Hin.
  - reflexivity.
  - split; [exact Hc|]. split; [exact Hrun|].
    unfold status_message. rewrite Hrun. split; [exact Hout|].
    unfold snd at 1 3. rewrite Hagain. split; reflexivity.
Defined.

End LegacyProofs.
(** ** The wrapper *)
Module WrapperProofs.
Import Wrapper.

Section Facts.
Context {H : Type} {adapter : HDFAdapter.Ops H}.
Implicit Types w : Wrapper H.

Ltac unfold_monad :=
  unfold bind, lift, ret, raise, get, modify, publish, print in *.

Ltac present Hpre key :=
  try (let z := fresh "z" in
       let E := fresh "E" in
       destruct (Hpre key _ ltac:(repeat first [apply list_elem_of_here | apply list_elem_of_further])) as [z E]).

Ltac enumerate pre post Hsplit Hpost :=
  destruct pre as [|[? ?] pre];
  [ simpl in Hsplit; subst post; try specialize (Hpost _ _ _ eq_refl)
  | simpl in Hsplit;
    first [ discriminate
          | injection Hsplit as <- <- Hsplit; enumerate pre post Hsplit Hpost ] ].

(** C10. [_handle_status] sets the eight records in the order state,
    version, process_duration, process_period, last_received_frame,
    last_processed_frame, time_since_last_message, current_attenuation,
    each to what the dictionary holds under its key: the state after the
    wrap of a negative code, the version as its [str], the others as
    received. For a dictionary holding the first keys of that order and
    lacking the next one, the handler raises [KeyError] for the missing key
    after exactly the records of the keys before it have been set, with
    these values and in that order; with all eight present it sets all
    eight and returns. The values are any JSON values, but for the three
    the handler compares: the state, the last received frame and the
    elapsed time are integers where present. *)
Theorem partial_status_publishes_prefix (items : list (string * json)) w pre post (s : Z) :
  status_fields = pre ++ post ->
  (forall key r, (key, r) ∈ pre -> is_Some (assoc key items)) ->
  (forall key r rest, post = (key, r) :: rest -> assoc key items = None) ->
  (forall v, assoc "state" items = Some v -> v = JInt s) ->
  (forall v, assoc "last_received_frame" items = Some v -> exists z, v = JInt z) ->
  (forall v, assoc "time_since_last_message" items = Some v -> exists z, v = JInt z) ->
  let value key := default JNull (assoc key items) in
  exists w',
    _handle_status (JDict items) w
    = (match post with
       | [] => Ok tt
       | (key, _) :: _ => Raise (KeyError key)
       end, w') /\
    sink w' = sink w ++
      take (length pre)
        [(STATE, Verbatim (JInt (if s <? 0 then 16 + s else s)));
         (VERSION, Str (value "version"));
         (PROCESS_DURATION, Verbatim (value "process_duration"));
         (PROCESS_PERIOD, Verbatim (value "process_period"));
         (FRAME_RECEIVED, Verbatim (value "last_received_frame"));
         (FRAME_PROCESSED, Verbatim (value "last_processed_frame"));
         (FRAME_LAST_TIME, Verbatim (value "time_since_last_message"));
         (ATTENUATION_RBV, Verbatim (value "current_attenuation"))].
Proof.
  intros Hsplit Hpre Hpost Hstate Hreceived Helapsed value. subst value.
  unfold status_fields in Hsplit.
  enumerate pre post Hsplit Hpost.
  all: present Hpre "state"; present Hpre "version";
    present Hpre "process_duration"; present Hpre "process_period";
    present Hpre "last_received_frame"; present Hpre "last_processed_frame";
    present Hpre "time_since_last_message"; present Hpre "current_attenuation".
  all: repeat match goal with
       | E : assoc "state" _ = Some ?v,
         Hs : forall v, assoc "state" _ = Some v -> v = JInt _ |- _ =>
           is_var v; pose proof (Hs _ E); subst v
       | E : assoc "last_received_frame" _ = Some ?v,
         Hr : forall v, assoc "last_received_frame" _ = Some v -> _ |- _ =>
           is_var v; destruct (Hr _ E) as [? ->]
       | E : assoc "time_since_last_message" _ = Some ?v,
         He : forall v, assoc "time_since_last_message" _ = Some v -> _ |- _ =>
           is_var v; destruct (He _ E) as [? ->]
       end.
  all: repeat match goal with Hx : forall _, _ |- _ => clear Hx end.
  all: unfold _handle_status, close_file, _if_connected, py_getitem.
  all: repeat match goal with E : assoc _ _ = _ |- _ => rewrite E; clear E end.
  all: unfold py_lt, py_gt, py_add, py_num; unfold_monad; simpl.
  all: repeat match goal with |- context [if ?b then _ else _] => destruct b; simpl end.
  all: eexists; (split; [reflexivity|]); simpl;
       rewrite <- ?app_assoc; simpl; first [reflexivity | symmetry; apply app_nil_r].
Qed.

(** C3. For a status whose state code is the integer [s], the first value
    the handler sets is that of the STATE record: [16 + s] when [s < 0]
    and [s] itself otherwise; nothing it sets afterwards is the STATE
    record. *)
Theorem negative_state_wraps (status : json) (s : Z) w :
  py_getitem status "state" = Ok (JInt s) ->
  exists rest,
    sink (snd (_handle_status status w))
    = sink w ++ (STATE, Verbatim (JInt (if s <? 0 then 16 + s else s))) :: rest /\
    forall v, (STATE, v) ∉ rest.
Proof.
  intros Hs. unfold _handle_status, close_file, _if_connected.
  unfold bind at 1. unfold lift at 1. rewrite Hs.
  unfold py_lt, py_add, py_num. unfold_monad. simpl.
  destruct (s <? 0); simpl.
  all: repeat match goal with
       | |- context [py_getitem ?d ?k] => destruct (py_getitem d k); simpl
       end.
  all: repeat match goal with
       | |- context [py_gt ?a ?b] => destruct (py_gt a b) as [[]| |]; simpl
       end.
  all: repeat match goal with |- context [if ?b then _ else _] => destruct b; simpl end.
  all: rewrite <- ?app_assoc; simpl.
  all: eexists; (split; [reflexivity|]).
  all: intros v Hin;
       repeat (apply elem_of_cons in Hin as [Hin|Hin]; [discriminate|]);
       by apply elem_of_nil in Hin.
Qed.


(** What [_if_connected] does when the wrapper is not connected: one
    printed line, [True] returned, the function not called. *)
Lemma _if_connected_disconnected {A} (func : M (Wrapper H) A) w :
  connected w = false ->
  _if_connected func w
  = (Ok ReturnedTrue,
     set_stdout (stdout w ++ ["Not connected to device. Try again once connection resumed."]) w).
Proof. intros Hc. unfold _if_connected, bind, get. rewrite Hc. done. Qed.

(** The status handler asks for the close exactly when the elapsed time
    exceeds the timeout and [last_received_frame > 1]. *)
Lemma timeout_close_condition (items : list (string * json)) w state elapsed received :
  (forall key r, (key, r) ∈ status_fields -> is_Some (assoc key items)) ->
  assoc "state" items = Some (JInt state) ->
  assoc "last_received_frame" items = Some (JInt received) ->
  assoc "time_since_last_message" items = Some (JInt elapsed) ->
  connected w = true ->
  exists w',
    _handle_status (JDict items) w = (Ok tt, w') /\
    h5f w' = (if (timeout_rbv w <? elapsed) && (1 <? received)
              then HDFAdapter._close_file (h5f w) else h5f w).
Proof.
  intros Hkeys Hs Hr He Hc.
  present Hkeys "version". present Hkeys "process_duration".
  present Hkeys "process_period". present Hkeys "last_processed_frame".
  present Hkeys "current_attenuation".
  unfold _handle_status, close_file, _if_connected, py_getitem.
  rewrite Hs, Hr, He.
  repeat match goal with E : assoc _ _ = Some _ |- _ => rewrite E; clear E end.
  unfold py_lt, py_gt, py_add, py_num. unfold_monad.
  destruct w as [c sr h t fo fc sh sk se out dn ad af ab wf]. simpl in *. subst c.
  destruct (state <? 0); simpl.
  all: destruct (t <? elapsed); simpl; [destruct (1 <? received); simpl|].
  all: try (destruct (fo =? 0); simpl); eexists; split; reflexivity.
Qed.


Lemma keeps_bind {A B} (m : M (Wrapper H) A) (k : A -> M (Wrapper H) B) :
  keeps_connected m -> (forall a, keeps_connected (k a)) ->
  keeps_connected (bind m k).
Proof.
  intros Hm Hk w. unfold bind. specialize (Hm w).
  destruct (m w) as [[a|e|] w1]; simpl in *; [|done|done].
  by rewrite Hk.
Qed.

Lemma keeps_lift {A} (r : result A) : keeps_connected (H := H) (lift r).
Proof. done. Qed.

Lemma keeps_ret {A} (a : A) : keeps_connected (H := H) (ret a).
Proof. done. Qed.

Lemma keeps_get : keeps_connected (H := H) get.
Proof. done. Qed.

Lemma keeps_modify (f : Wrapper H -> Wrapper H) :
  (forall w, connected (f w) = connected w) -> keeps_connected (modify f).
Proof. intros Hf w. apply Hf. Qed.

Lemma keeps_if {A} (b : bool) (m1 m2 : M (Wrapper H) A) :
  keeps_connected m1 -> keeps_connected m2 ->
  keeps_connected (if b then m1 else m2).
Proof. by destruct b. Qed.

Ltac keeps :=
  repeat first
    [ apply keeps_bind; [|intros ?]
    | apply keeps_if
    | apply keeps_lift
    | apply keeps_ret
    | apply keeps_get
    | apply keeps_modify; done ].

Lemma keeps__if_connected {A} (func : M (Wrapper H) A) :
  keeps_connected func -> keeps_connected (_if_connected func).
Proof. intros Hf. unfold _if_connected, print. keeps. Qed.

Lemma keeps_close_file x : keeps_connected (H := H) (close_file x).
Proof. unfold close_file. apply keeps__if_connected. keeps. Qed.

Lemma keeps_open_file x : keeps_connected (H := H) (open_file x).
Proof. unfold open_file. apply keeps__if_connected. keeps. Qed.

(** Neither the status handler nor the file commands write the flag. *)
Lemma keeps__handle_status status : keeps_connected (H := H) (_handle_status status).
Proof.
  unfold _handle_status, publish.
  repeat first [ apply keeps_close_file | progress keeps ].
Qed.


Lemma keeps_monitor_event_turn event :
  keeps_connected (H := H) (monitor_event_turn event).
Proof.
  destruct event as [|[resp|]]; unfold monitor_event_turn, print; keeps.
  intros w. unfold except_RuntimeError, write_to_file.
  destruct (HDFAdapter._write_to_file a (h5f w)) as [[[]|[]|] h]; done.
Qed.

(** C4, amended. A response that is not a JSON document makes [json.loads]
    raise, and neither monitor catches it: the turn ends in
    [JSONDecodeError] with the wrapper as it was, nothing printed, and the
    loop runs none of the responses that follow. What the loops pass over
    without raising is a missing response. *)
Theorem malformed_message_leaves_the_loop (raw : string) (rest : list stream_event) w :
  monitor_command_stream (Response (Some (Garbled raw)) :: rest) w
  = (Raise JSONDecodeError, w) /\
  monitor_event_stream (Response (Some (Garbled raw)) :: rest) w
  = (Raise JSONDecodeError, w) /\
  monitor_command_stream (Response None :: rest) w = monitor_command_stream rest w /\
  monitor_event_stream (Response None :: rest) w = monitor_event_stream rest w.
Proof. repeat split; reflexivity. Qed.

(** A JSON object without the key a monitor looks for is passed over. *)
Lemma message_without_key_is_skipped (items : list (string * json)) rest w :
  (assoc "status" items = None ->
   monitor_command_stream (Response (Some (Encoded (JDict items))) :: rest) w
   = monitor_command_stream rest w) /\
  (assoc "frame_number" items = None ->
   monitor_event_stream (Response (Some (Encoded (JDict items))) :: rest) w
   = monitor_event_stream rest w).
Proof.
  split; intros Hn; simpl; unfold bind, lift, ret; simpl; rewrite Hn;
    rewrite bool_decide_eq_false_2 by (intros [? ?]; done); done.
Qed.

(** C5, amended. [_query_status] writes the flag in one place, where it
    clears it: at the top of its loop with the stream running and the last
    request unanswered; it never sets it. A turn of the command monitor
    sets the flag when the response is a document in which it finds
    "status" and leaves it alone otherwise; a turn of the event monitor
    and the file commands leave it alone. *)
Theorem connected_flag_writers w :
  (forall running pc,
     connected (snd (_query_status running pc w))
     = match pc with
       | Polling => connected w && negb (running && negb (status_recv w))
       | Reconnecting => connected w
       end) /\
  (forall event,
     connected (snd (monitor_command_turn event w))
     = match event with
       | Response (Some (Encoded doc)) =>
           match py_contains "status" doc with
           | Ok true => true
           | _ => connected w
           end
       | _ => connected w
       end) /\
  (forall event, connected (snd (monitor_event_turn event w)) = connected w) /\
  (forall x, connected (snd (close_file x w)) = connected w) /\
  (forall x, connected (snd (open_file x w)) = connected w).
Proof.
  split; [|split; [|split; [|split]]].
  - intros running [|]; simpl.
    + unfold _query_status, _req_status, _send_message, print. unfold_monad.
      destruct running; simpl; [|by rewrite andb_true_r].
      destruct (status_recv w); simpl; [by rewrite andb_true_r | by rewrite andb_false_r].
    + unfold _req_status, _send_message, print. unfold_monad. simpl.
      by destruct (status_recv w).
  - intros [|[[raw|doc]|]]; try done.
    unfold monitor_command_turn, json_loads.
    unfold bind at 1. unfold lift at 1.
    unfold bind at 1. unfold lift at 1.
    destruct (py_contains "status" doc) as [[|]| |]; try done.
    unfold bind at 1. unfold get at 1.
    unfold bind at 1.
    assert (Hset : (if negb (connected w) then modify (set_connected true) else ret tt) w
                   = (Ok tt, set_connected true w)).
    { destruct w as [[|] ? ? ? ? ? ? ? ? ? ? ? ? ? ?]; done. }
    rewrite Hset.
    unfold bind at 1. unfold lift at 1.
    destruct (py_getitem doc "status") as [status| |]; try done.
    unfold bind at 1.
    pose proof (keeps__handle_status status (set_connected true w)) as Hk.
    destruct (_handle_status status (set_connected true w)) as [[[]| |] w1]; simpl in *; done.
  - intros event. apply keeps_monitor_event_turn.
  - intros x. apply keeps_close_file.
  - intros x. apply keeps_open_file.
Qed.

End Facts.

(** C3 at the two codes of the specification: -1 is published as 15, and 2
    as 2. *)
Lemma negative_state_wraps_witness :
  (exists rest,
     sink (snd (_handle_status (status_message (-1) 7 0) startup))
     = sink startup ++ (STATE, Verbatim (JInt 15)) :: rest /\
     forall v, (STATE, v) ∉ rest) /\
  (exists rest,
     sink (snd (_handle_status (status_message 2 7 0) startup))
     = sink startup ++ (STATE, Verbatim (JInt 2)) :: rest /\
     forall v, (STATE, v) ∉ rest).
Proof.
  split.
  - apply (negative_state_wraps (status_message (-1) 7 0) (-1) startup). reflexivity.
  - apply (negative_state_wraps (status_message 2 7 0) 2 startup). reflexivity.
Defined.

(** A status dictionary cut short after [process_period], the version a
    string. *)
Lemma partial_status_publishes_prefix_witness :
  exists w',
    _handle_status
      (JDict [("state", JInt (-1)); ("version", JStr "1.4.2");
              ("process_duration", JInt 12); ("process_period", JInt 50)])
      startup
    = (Raise (KeyError "last_received_frame"), w') /\
    sink w' = sink startup ++
              [(STATE, Verbatim (JInt 15)); (VERSION, Str (JStr "1.4.2"));
               (PROCESS_DURATION, Verbatim (JInt 12));
               (PROCESS_PERIOD, Verbatim (JInt 50))].
Proof.
  apply (partial_status_publishes_prefix
           [("state", JInt (-1)); ("version", JStr "1.4.2");
            ("process_duration", JInt 12); ("process_period", JInt 50)]
           startup
           [("state", STATE); ("version", VERSION);
            ("process_duration", PROCESS_DURATION); ("process_period", PROCESS_PERIOD)]
           [("last_received_frame", FRAME_RECEIVED);
            ("last_processed_frame", FRAME_PROCESSED);
            ("time_since_last_message", FRAME_LAST_TIME);
            ("current_attenuation", ATTENUATION_RBV)]
           (-1)).
  - reflexivity.
  - intros key r Hin.
    repeat (apply elem_of_cons in Hin as [Hin|Hin];
            [injection Hin as -> _; simpl; eauto|]).
    by apply elem_of_nil in Hin.
  - intros key r rest Heq. injection Heq as <- _ _. reflexivity.
  - intros v Hv. simpl in Hv. by injection Hv.
  - intros v Hv. discriminate Hv.
  - intros v Hv. discriminate Hv.
Defined.

(** C2 at the failing input: with the wrapper connected, the file open,
    the timeout at 3 and 10 s elapsed, a status whose
    [last_received_frame] is 1 is handled without the close being asked
    for, and the file stays open; with 2 the file is closed. *)
Theorem timeout_close_skips_frame_one :
  connected recording = true /\ timeout_rbv recording = 3 /\
  HDFAdapter.file_open (h5f recording) = true /\
  fst (_handle_status (status_message 2 1 10) recording) = Ok tt /\
  HDFAdapter.file_open (h5f (snd (_handle_status (status_message 2 1 10) recording))) = true /\
  fst (_handle_status (status_message 2 2 10) recording) = Ok tt /\
  HDFAdapter.file_open (h5f (snd (_handle_status (status_message 2 2 10) recording))) = false.
Proof. repeat split; reflexivity. Qed.

(** C4 as stated fails: a response that is not JSON ends the command
    monitor's loop in an exception, and the status reply that follows it is
    never handled. *)
Lemma malformed_message_stops_the_monitor :
  monitor_command_stream
    [Response (Some (Garbled "{"));
     Response (Some (Encoded (JDict [("status", status_message 2 7 0)])))]
    startup
  = (Raise JSONDecodeError, startup) /\
  monitor_event_stream [Response (Some (Garbled "{"))] startup
  = (Raise JSONDecodeError, startup).
Proof. split; reflexivity. Qed.

(** C5 as stated fails: the command monitor, not the poller, moves the
    flag to connected. *)
Lemma command_monitor_sets_connected :
  connected startup = false /\
  connected
    (snd (monitor_command_turn
            (Response (Some (Encoded (JDict [("status", status_message 2 7 0)]))))
            startup))
  = true.
Proof. split; reflexivity. Qed.

(** C6 at the failing input: with the wrapper not connected,
    [_set_shutter_pos(500, "CLOSED")] sends the configure command, stores
    the position and writes both autosave files. *)
Theorem shutter_position_sent_while_disconnected :
  connected startup = false /\
  fst (_set_shutter_pos 500 SHUTTER_CLOSED startup) = Ok tt /\
  sent (snd (_set_shutter_pos 500 SHUTTER_CLOSED startup))
  = [JDict [("command", JStr "configure");
            ("params", JDict [("shutter_closed_position", JInt 500)])]] /\
  _autosave_dict (snd (_set_shutter_pos 500 SHUTTER_CLOSED startup))
  = [("PFC:SHUTTER:CLOSED", 500)] /\
  map fst (written_files (snd (_set_shutter_pos 500 SHUTTER_CLOSED startup)))
  = ["/ioc/autosave.txt"; "/ioc/autosave-20240101-12.txt"].
Proof. repeat split; reflexivity. Qed.

End WrapperProofs.

(** ** Fields a computation leaves alone *)

Lemma preserves_bind {S A B C} (field : S -> C) (m : M S A) (k : A -> M S B) :
  preserves field m -> (forall a, preserves field (k a)) -> preserves field (bind m k).
Proof.
  intros Hm Hk s. unfold bind. specialize (Hm s).
  destruct (m s) as [[a|e|] s1]; simpl in *; [|done|done].
  by rewrite Hk.
Qed.

Lemma preserves_lift {S A C} (field : S -> C) (r : result A) : preserves field (lift r).
Proof. done. Qed.

Lemma preserves_ret {S A C} (field : S -> C) (a : A) : preserves field (ret a).
Proof. done. Qed.

Lemma preserves_raise {S A C} (field : S -> C) (e : exn) : preserves field (raise (A := A) e).
Proof. done. Qed.

Lemma preserves_get {S C} (field : S -> C) : preserves field get.
Proof. done. Qed.

Lemma preserves_modify {S C} (field : S -> C) (f : S -> S) :
  (forall s, field (f s) = field s) -> preserves field (modify f).
Proof. intros Hf s. apply Hf. Qed.

Lemma preserves_if {S A C} (field : S -> C) (b : bool) (m1 m2 : M S A) :
  preserves field m1 -> preserves field m2 -> preserves field (if b then m1 else m2).
Proof. by destruct b. Qed.

Lemma preserves_try_except {S A C} (field : S -> C) (m : M S A) (h : exn -> M S A) :
  preserves field m -> (forall e, preserves field (h e)) ->
  preserves field (try_except m h).
Proof.
  intros Hm Hh s. unfold try_except. specialize (Hm s).
  destruct (m s) as [[a|e|] s1]; simpl in *; [done| |done].
  by rewrite Hh.
Qed.

(** ** Dictionary assignment *)

Lemma assoc_dict_set_eq {A} key (v : A) items :
  assoc key (dict_set key v items) = Some v.
Proof.
  induction items as [|[k x] items IH]; simpl.
  - by rewrite String.eqb_refl.
  - destruct (String.eqb k key) eqn:E; simpl; rewrite E; done.
Qed.

Lemma assoc_dict_set_ne {A} key key' (v : A) items :
  key' <> key -> assoc key' (dict_set key v items) = assoc key' items.
Proof.
  intros Hne. induction items as [|[k x] items IH]; simpl.
  - destruct (String.eqb key key') eqn:E; [|done].
    apply String.eqb_eq in E. congruence.
  - destruct (String.eqb k key) eqn:E; simpl.
    + apply String.eqb_eq in E. subst k.
      destruct (String.eqb key key') eqn:E'; [|done].
      apply String.eqb_eq in E'. congruence.
    + destruct (String.eqb k key'); done.
Qed.

Lemma dict_set_keys {A} key (v : A) items :
  is_Some (assoc key items) -> map fst (dict_set key v items) = map fst items.
Proof.
  induction items as [|[k x] items IH]; simpl; intros Hs.
  - by destruct Hs.
  - destruct (String.eqb k key) eqn:E; simpl; [|by rewrite IH].
    apply String.eqb_eq in E. by subst.
Qed.

Ltac preserves_step :=
  first
    [ apply preserves_bind; [|intros ?]
    | apply preserves_if
    | apply preserves_try_except; [|intros ?]
    | apply preserves_lift
    | apply preserves_ret
    | apply preserves_raise
    | apply preserves_get
    | apply preserves_modify; done ].

(** ** More on the wrapper's loops *)
Module SupervisionProofs.
Import Wrapper Supervision.

Section Facts.
Context {H : Type} {adapter : HDFAdapter.Ops H}.
Implicit Types w : Wrapper H.

(** The status handler touches neither the pending-request flag nor the
    list of sent messages. *)
Lemma _handle_status_keeps_status_recv status :
  preserves (S := Wrapper H) status_recv (_handle_status status).
Proof.
  unfold _handle_status, close_file, _if_connected, publish, print.
  repeat preserves_step.
Qed.

Lemma _handle_status_keeps_sent status :
  preserves (S := Wrapper H) sent (_handle_status status).
Proof.
  unfold _handle_status, close_file, _if_connected, publish, print.
  repeat preserves_step.
Qed.

Lemma _handle_status_keeps_connected status :
  preserves (S := Wrapper H) connected (_handle_status status).
Proof.
  unfold _handle_status, close_file, _if_connected, publish, print.
  repeat preserves_step.
Qed.

(** X1. A status request that goes unanswered for one poll period
    disconnects: from the top of the loop with no request pending, two
    turns with the stream running send exactly one request, clear the flag
    and leave the poller waiting for a reply. *)
Theorem missed_reply_disconnects w :
  status_recv w = true ->
  exists w',
    poll_turns [true; true] Polling w = (Ok Reconnecting, w') /\
    sent w' = sent w ++ [status_request] /\
    connected w' = false /\
    status_recv w' = false /\
    h5f w' = h5f w /\ sink w' = sink w.
Proof.
  intros Hr. unfold poll_turns, _query_status, _req_status, _send_message, print.
  unfold bind, get, modify, ret. simpl. rewrite Hr. simpl.
  eexists. split; [reflexivity|]. simpl. done.
Qed.

Lemma waiting_turn running w :
  status_recv w = false ->
  _query_status running Reconnecting w
  = (Ok Reconnecting, set_sent (sent w ++ [status_request]) w).
Proof.
  intros Hr. unfold _query_status, _req_status, _send_message.
  unfold bind, get, modify, ret. simpl. rewrite Hr. done.
Qed.

(** X2. While it waits for a reply the poller sends one status request
    per turn, whatever the stream's [running] flag reads, and stays
    waiting; it changes nothing else, the connection flag included. *)
Theorem reconnect_resends runs : forall w,
  status_recv w = false ->
  exists w',
    poll_turns runs Reconnecting w = (Ok Reconnecting, w') /\
    sent w' = sent w ++ replicate (length runs) status_request /\
    connected w' = connected w /\
    status_recv w' = false /\
    stdout w' = stdout w.
Proof.
  induction runs as [|r runs IH]; intros w Hr.
  - exists w. simpl. rewrite app_nil_r. done.
  - destruct (IH (set_sent (sent w ++ [status_request]) w) Hr)
      as (w' & Hrun & Hs & Hc & Hr' & Ho).
    exists w'. split.
    { cbn [poll_turns]. rewrite (bind_run _ _ _ _ _ (waiting_turn r w Hr)). exact Hrun. }
    simpl in *. rewrite Hs, <- app_assoc. done.
Qed.

(** The command monitor's turn on a response that is a JSON object with a
    "status" entry, up to the call of the handler. *)
Lemma status_turn (items : list (string * json)) status w :
  assoc "status" items = Some status ->
  monitor_command_turn (Response (Some (Encoded (JDict items)))) w
  = bind (_handle_status status) (fun _ => modify (set_status_recv true))
      (set_connected true w).
Proof.
  intros Hs. unfold monitor_command_turn, json_loads.
  unfold bind at 1. unfold lift at 1. cbn [py_contains].
  rewrite Hs. rewrite bool_decide_eq_true_2 by eauto.
  unfold bind at 1. unfold lift at 1.
  unfold bind at 1. unfold get at 1.
  unfold bind at 1.
  assert (Hset : (if negb (connected w) then modify (set_connected true) else ret tt) w
                 = (Ok tt, set_connected true w)).
  { destruct w as [[|] ? ? ? ? ? ? ? ? ? ? ? ? ? ?]; done. }
  rewrite Hset. unfold bind at 1. unfold lift at 1. cbn [py_getitem].
  rewrite Hs. done.
Qed.

(** X3. A complete status reply ends the wait: the command monitor's turn
    marks the wrapper connected and the request answered, sending
    nothing, and the poller's next turn sends one more request, prints the
    reconnection and goes back to the top of its loop with the flag still
    set. *)
Theorem reply_reconnects (doc items : list (string * json)) w running
    state received elapsed :
  assoc "status" doc = Some (JDict items) ->
  (forall key r, (key, r) ∈ status_fields -> is_Some (assoc key items)) ->
  assoc "state" items = Some (JInt state) ->
  assoc "last_received_frame" items = Some (JInt received) ->
  assoc "time_since_last_message" items = Some (JInt elapsed) ->
  exists w1 w2,
    monitor_command_turn (Response (Some (Encoded (JDict doc)))) w = (Ok tt, w1) /\
    connected w1 = true /\ status_recv w1 = true /\ sent w1 = sent w /\
    _query_status running Reconnecting w1 = (Ok Polling, w2) /\
    connected w2 = true /\ status_recv w2 = true /\
    sent w2 = sent w ++ [status_request].
Proof.
  intros Hdoc Hkeys Hs Hr He.
  destruct (WrapperProofs.timeout_close_condition items (set_connected true w)
              state elapsed received Hkeys Hs Hr He eq_refl) as (w0 & Hrun & _).
  pose proof (_handle_status_keeps_connected (JDict items) (set_connected true w)) as Hc.
  pose proof (_handle_status_keeps_status_recv (JDict items) (set_connected true w)) as Hsr.
  pose proof (_handle_status_keeps_sent (JDict items) (set_connected true w)) as Hsent.
  rewrite Hrun in Hc, Hsr, Hsent. simpl in Hc, Hsr, Hsent.
  exists (set_status_recv true w0). eexists.
  split. { rewrite (status_turn doc (JDict items) w Hdoc).
           rewrite (bind_run _ _ _ _ _ Hrun). done. }
  split; [done|]. split; [done|]. split; [done|].
  split. { unfold _query_status, _req_status, _send_message, print.
           unfold bind, get, modify, ret. simpl. reflexivity. }
  simpl. rewrite Hsent. done.
Qed.

(** X4. The command monitor sets the connection flag before it hands the
    status over and the answered flag only after: when the handler raises
    (a status short of a key, say), the turn ends in that exception with
    the wrapper marked connected and the request still marked
    unanswered. *)
Theorem failed_status_connects_without_answer (doc : list (string * json)) status w e w1 :
  assoc "status" doc = Some status ->
  _handle_status status (set_connected true w) = (Raise e, w1) ->
  monitor_command_turn (Response (Some (Encoded (JDict doc)))) w = (Raise e, w1) /\
  connected w1 = true /\
  status_recv w1 = status_recv w /\
  sent w1 = sent w.
Proof.
  intros Hdoc Hrun.
  pose proof (_handle_status_keeps_connected status (set_connected true w)) as Hc.
  pose proof (_handle_status_keeps_status_recv status (set_connected true w)) as Hsr.
  pose proof (_handle_status_keeps_sent status (set_connected true w)) as Hsent.
  rewrite Hrun in Hc, Hsr, Hsent. simpl in Hc, Hsr, Hsent.
  split; [|done].
  rewrite (status_turn doc status w Hdoc). unfold bind. rewrite Hrun. done.
Qed.

(** X5. A response that is JSON but not an object ends either monitor's
    loop as well: on [null], a boolean or a number the membership test
    raises [TypeError] and the wrapper is unchanged; on a string holding
    "status", or a list holding the string "status", the command monitor
    first marks the wrapper connected and then raises [TypeError] on the
    subscript. *)
Theorem non_object_reply_raises w (rest : list stream_event) :
  (forall doc,
     match doc with JNull | JBool _ | JInt _ => True | _ => False end ->
     monitor_command_stream (Response (Some (Encoded doc)) :: rest) w
     = (Raise TypeError, w) /\
     monitor_event_stream (Response (Some (Encoded doc)) :: rest) w
     = (Raise TypeError, w)) /\
  (forall s,
     substring_of "status" s = true ->
     monitor_command_stream (Response (Some (Encoded (JStr s))) :: rest) w
     = (Raise TypeError, set_connected true w)) /\
  (forall items,
     JStr "status" ∈ items ->
     monitor_command_stream (Response (Some (Encoded (JList items))) :: rest) w
     = (Raise TypeError, set_connected true w)).
Proof.
  split; [|split].
  - intros [] Hd; try done.
  - intros s Hs. cbn [monitor_command_stream monitor_command_turn].
    unfold json_loads, bind, lift, get. cbn [py_contains]. rewrite Hs.
    destruct w as [[|] ? ? ? ? ? ? ? ? ? ? ? ? ? ?]; done.
  - intros items Hin. cbn [monitor_command_stream monitor_command_turn].
    assert (Hex : existsb (fun x => match x with JStr s => String.eqb s "status" | _ => false end) items = true).
    { apply existsb_exists. exists (JStr "status"). split; [|done].
      by apply list_elem_of_In. }
    unfold json_loads, bind, lift, get. cbn [py_contains]. rewrite Hex.
    destruct w as [[|] ? ? ? ? ? ? ? ? ? ? ? ? ? ?]; done.
Qed.

Lemma frame_turn (items : list (string * json)) w :
  is_Some (assoc "frame_number" items) ->
  monitor_event_turn (Response (Some (Encoded (JDict items)))) w
  = (if HDFAdapter.file_open (h5f w)
     then except_RuntimeError (write_to_file (JDict items)) print
     else print "WARNING: HDF5 file not open and frame received.") w.
Proof.
  intros Hf. unfold monitor_event_turn, json_loads.
  unfold bind at 1. unfold lift at 1. cbn [py_contains].
  rewrite bool_decide_eq_true_2 by done.
  unfold bind at 1. unfold lift at 1.
  unfold bind at 1. unfold get at 1. done.
Qed.

(** X6. The event monitor survives a [RuntimeError] of the file write and
    nothing else: with the file open, a frame message whose write raises
    [RuntimeError] has the message printed and the turn returns; a write
    raising another exception ends the turn in it; and with the file
    closed the turn only prints a warning, the adapter not being called. *)
Theorem event_turn_errors (items : list (string * json)) w :
  is_Some (assoc "frame_number" items) ->
  let turn := monitor_event_turn (Response (Some (Encoded (JDict items)))) w in
  (HDFAdapter.file_open (h5f w) = false ->
   turn = (Ok tt, set_stdout (stdout w ++ ["WARNING: HDF5 file not open and frame received."]) w)) /\
  (HDFAdapter.file_open (h5f w) = true ->
   forall h,
     (HDFAdapter._write_to_file (JDict items) (h5f w) = (Ok tt, h) ->
      turn = (Ok tt, set_h5f h w)) /\
     (forall msg,
        HDFAdapter._write_to_file (JDict items) (h5f w) = (Raise (RuntimeError msg), h) ->
        turn = (Ok tt, set_stdout (stdout w ++ [msg]) (set_h5f h w))) /\
     (forall e,
        HDFAdapter._write_to_file (JDict items) (h5f w) = (Raise e, h) ->
        (forall msg, e <> RuntimeError msg) ->
        turn = (Raise e, set_h5f h w))).
Proof.
  intros Hf turn. subst turn. rewrite (frame_turn items w Hf).
  split; intros Ho; rewrite Ho; [done|].
  intros h. unfold except_RuntimeError, write_to_file.
  split; [|split].
  - intros ->. done.
  - intros msg ->. done.
  - intros e -> Hne. destruct e; try done. by destruct (Hne msg).
Qed.

Ltac present Hkeys key :=
  let v := fresh "v" in
  let E := fresh "E" in
  destruct (Hkeys key _ ltac:(repeat first [apply list_elem_of_here | apply list_elem_of_further]))
    as [v E].

(** X7. For a status dictionary with the eight keys and integers under
    state, last_received_frame and time_since_last_message, the handler
    returns, and it closes the file exactly when the elapsed time exceeds
    the timeout read-back, [last_received_frame] exceeds 1 and the wrapper
    is connected; the FILE:OPEN record is then 0. When the first two hold
    without a connection the close is refused with a printed line. *)
Theorem timeout_close_exact (items : list (string * json)) w state elapsed received :
  (forall key r, (key, r) ∈ status_fields -> is_Some (assoc key items)) ->
  assoc "state" items = Some (JInt state) ->
  assoc "last_received_frame" items = Some (JInt received) ->
  assoc "time_since_last_message" items = Some (JInt elapsed) ->
  let due := (timeout_rbv w <? elapsed) && (1 <? received) in
  exists w',
    _handle_status (JDict items) w = (Ok tt, w') /\
    h5f w' = (if due && connected w then HDFAdapter._close_file (h5f w) else h5f w) /\
    file_open w' = (if due && connected w then 0 else file_open w) /\
    stdout w' = stdout w ++
      (if due && negb (connected w)
       then ["Not connected to device. Try again once connection resumed."] else []) /\
    timeout_rbv w' = timeout_rbv w.
Proof.
  intros Hkeys Hs Hr He due. subst due.
  present Hkeys "version". present Hkeys "process_duration".
  present Hkeys "process_period". present Hkeys "last_processed_frame".
  present Hkeys "current_attenuation".
  unfold _handle_status, close_file, _if_connected, py_getitem.
  rewrite Hs, Hr, He.
  repeat match goal with E : assoc _ _ = Some _ |- _ => rewrite E; clear E end.
  unfold py_lt, py_gt, py_add, py_num.
  unfold bind, lift, ret, raise, get, modify, publish, print.
  destruct w as [c sr h t fo fc sh sk se out dn ad af ab wf]. simpl.
  destruct (state <? 0); simpl.
  all: destruct (t <? elapsed); simpl; [destruct (1 <? received); simpl|].
  all: try (destruct c; simpl; [destruct (fo =? 0) eqn:Hfo; simpl|]).
  all: eexists; (split; [reflexivity|]); simpl; rewrite ?app_nil_r;
       try (apply Z.eqb_eq in Hfo; subst fo); done.
Qed.

(** X8. A timeout set through [_set_timeout] reaches the device and the
    handler only if the wrapper is connected at that moment: connected, the
    value is sent, becomes the read-back, and is the threshold the handler
    of the next complete status closes the file by; not connected, the call
    answers [True], nothing is sent and the read-back stays what it was. *)
Theorem timeout_applies_when_connected (timeout : Z) w :
  let w1 := snd (_set_timeout timeout w) in
  fst (_set_timeout timeout w)
  = Ok (if connected w then Returned tt else ReturnedTrue) /\
  timeout_rbv w1 = (if connected w then timeout else timeout_rbv w) /\
  sent w1 = sent w ++
    (if connected w
     then [JDict [("command", JStr "configure");
                  ("params", JDict [("timeout", JInt timeout)])]]
     else []) /\
  connected w1 = connected w /\ h5f w1 = h5f w /\
  (connected w = true ->
   forall (items : list (string * json)) state elapsed received,
     (forall key r, (key, r) ∈ status_fields -> is_Some (assoc key items)) ->
     assoc "state" items = Some (JInt state) ->
     assoc "last_received_frame" items = Some (JInt received) ->
     assoc "time_since_last_message" items = Some (JInt elapsed) ->
     exists w2,
       _handle_status (JDict items) w1 = (Ok tt, w2) /\
       h5f w2 = (if (timeout <? elapsed) && (1 <? received)
                 then HDFAdapter._close_file (h5f w) else h5f w)).
Proof.
  intros w1.
  assert (H1 : fst (_set_timeout timeout w)
               = Ok (if connected w then Returned tt else ReturnedTrue) /\
          timeout_rbv w1 = (if connected w then timeout else timeout_rbv w) /\
          sent w1 = sent w ++
            (if connected w
             then [JDict [("command", JStr "configure");
                          ("params", JDict [("timeout", JInt timeout)])]]
             else []) /\
          connected w1 = connected w /\ h5f w1 = h5f w).
  { subst w1. unfold _set_timeout, _if_connected, _configure_param, _send_message, print.
    unfold bind, get, modify, ret.
    destruct w as [[|] sr h t fo fc sh sk se out dn ad af ab wf]; simpl;
      rewrite ?app_nil_r; done. }
  destruct H1 as (Hf & Ht & Hs & Hc & Hh).
  repeat (split; [done|]).
  intros Hon items state elapsed received Hkeys Hst Hr He.
  rewrite Hon in Ht, Hc.
  destruct (WrapperProofs.timeout_close_condition items w1 state elapsed received
              Hkeys Hst Hr He Hc) as (w2 & Hrun & Hh2).
  exists w2. split; [done|]. by rewrite Hh2, Ht, Hh.
Qed.

(** X9. [_set_shutter_pos] always returns and always saves, connected or
    not: afterwards the autosave dictionary holds the value under
    device:SHUTTER:state and every other key as before, and both autosave
    files are rewritten with this dictionary. The device is sent the
    position only for the closed state. *)
Theorem shutter_position_is_saved (val : Z) (shutter_state : string) w :
  let key := device_name w +:+ ":SHUTTER:" +:+ shutter_state in
  let w' := snd (_set_shutter_pos val shutter_state w) in
  fst (_set_shutter_pos val shutter_state w) = Ok tt /\
  assoc key (_autosave_dict w') = Some val /\
  (forall other, other <> key ->
     assoc other (_autosave_dict w') = assoc other (_autosave_dict w)) /\
  written_files w'
  = written_files w ++ [(autosave_file w, _autosave_dict w');
                        (autosave_backup_file w, _autosave_dict w')] /\
  sent w'
  = sent w ++
    (if String.eqb shutter_state SHUTTER_CLOSED
     then [JDict [("command", JStr "configure");
                  ("params", JDict [("shutter_closed_position", JInt val)])]]
     else []) /\
  connected w' = connected w.
Proof.
  intros key w'. subst key w'.
  unfold _set_shutter_pos, _set_shutter, _if_connected, write_autosave,
    _configure_param, _send_message, print.
  unfold bind, get, modify, ret.
  destruct w as [c sr h t fo fc sh sk se out dn ad af ab wf]. simpl.
  destruct (String.eqb shutter_state SHUTTER_CLOSED); simpl;
    destruct (String.eqb (if sh =? 0 then "CLOSED" else "OPEN") shutter_state); simpl;
    destruct c; simpl; rewrite ?app_nil_r, <- ?app_assoc; simpl;
    (split; [done|]); (split; [apply assoc_dict_set_eq|]);
    (split; [intros other Hne; by apply assoc_dict_set_ne|]); done.
Qed.

End Facts.

Ltac all_fields :=
  let Hin := fresh "Hin" in
  intros ? ? Hin; unfold status_fields in Hin;
  repeat (apply elem_of_cons in Hin as [Hin|Hin];
          [injection Hin as -> _; simpl; eauto|]);
  by apply elem_of_nil in Hin.

Lemma missed_reply_disconnects_witness :
  exists w',
    poll_turns [true; true] Polling recording = (Ok Reconnecting, w') /\
    sent w' = sent recording ++ [status_request] /\
    connected w' = false /\
    status_recv w' = false /\
    h5f w' = h5f recording /\ sink w' = sink recording.
Proof. apply (missed_reply_disconnects recording). reflexivity. Defined.

Lemma reconnect_resends_witness :
  exists w',
    poll_turns [true; false; true] Reconnecting (set_status_recv false recording)
    = (Ok Reconnecting, w') /\
    sent w' = sent (set_status_recv false recording)
              ++ replicate (length [true; false; true]) status_request /\
    connected w' = connected (set_status_recv false recording) /\
    status_recv w' = false /\
    stdout w' = stdout (set_status_recv false recording).
Proof.
  apply (reconnect_resends [true; false; true] (set_status_recv false recording)).
  reflexivity.
Defined.

Lemma reply_reconnects_witness :
  exists w1 w2,
    monitor_command_turn
      (Response (Some (Encoded (JDict [("status", JDict sample_status)]))))
      (set_status_recv false startup) = (Ok tt, w1) /\
    connected w1 = true /\ status_recv w1 = true /\
    sent w1 = sent (set_status_recv false startup) /\
    _query_status true Reconnecting w1 = (Ok Polling, w2) /\
    connected w2 = true /\ status_recv w2 = true /\
    sent w2 = sent (set_status_recv false startup) ++ [status_request].
Proof.
  apply (reply_reconnects [("status", JDict sample_status)] sample_status
           (set_status_recv false startup) true 2 7 0).
  - reflexivity.
  - all_fields.
  - reflexivity.
  - reflexivity.
  - reflexivity.
Defined.

Lemma failed_status_connects_without_answer_witness :
  monitor_command_turn
    (Response (Some (Encoded (JDict [("status", JDict [("state", JInt 2)])]))))
    (set_status_recv false startup)
  = (Raise (KeyError "version"),
     snd (_handle_status (JDict [("state", JInt 2)])
            (set_connected true (set_status_recv false startup)))) /\
  connected (snd (_handle_status (JDict [("state", JInt 2)])
                    (set_connected true (set_status_recv false startup)))) = true /\
  status_recv (snd (_handle_status (JDict [("state", JInt 2)])
                      (set_connected true (set_status_recv false startup))))
  = status_recv (set_status_recv false startup) /\
  sent (snd (_handle_status (JDict [("state", JInt 2)])
               (set_connected true (set_status_recv false startup))))
  = sent (set_status_recv false startup).
Proof.
  apply (failed_status_connects_without_answer
           [("status", JDict [("state", JInt 2)])] (JDict [("state", JInt 2)])
           (set_status_recv false startup)).
  - reflexivity.
  - reflexivity.
Defined.

Lemma non_object_reply_raises_witness :
  monitor_command_stream [Response (Some (Encoded JNull))] recording
  = (Raise TypeError, recording) /\
  monitor_event_stream [Response (Some (Encoded (JInt 3)))] recording
  = (Raise TypeError, recording) /\
  monitor_command_stream [Response (Some (Encoded (JStr "no status")))] startup
  = (Raise TypeError, set_connected true startup) /\
  monitor_command_stream [Response (Some (Encoded (JList [JStr "status"])))] startup
  = (Raise TypeError, set_connected true startup).
Proof.
  split; [|split; [|split]].
  - apply (proj1 (non_object_reply_raises recording [])). exact I.
  - apply (proj1 (non_object_reply_raises recording [])). exact I.
  - apply (proj1 (proj2 (non_object_reply_raises startup []))). reflexivity.
  - apply (proj2 (proj2 (non_object_reply_raises startup []))).
    apply elem_of_cons. by left.
Defined.

Lemma event_turn_errors_witness :
  monitor_event_turn (Response (Some (Encoded (JDict sample_frame)))) startup
  = (Ok tt, set_stdout (stdout startup
                        ++ ["WARNING: HDF5 file not open and frame received."]) startup) /\
  monitor_event_turn (Response (Some (Encoded (JDict sample_frame)))) recording
  = (Ok tt, set_h5f (snd (HDFAdapter._write_to_file (JDict sample_frame) (h5f recording)))
              recording) /\
  monitor_event_turn
    (Response (Some (Encoded (JDict [("frame_number", JInt (-1));
                                     ("adjustment", JInt 1); ("attenuation", JInt 7)]))))
    recording
  = (Ok tt, set_stdout (stdout recording ++ ["negative frame number"])
              (set_h5f (h5f recording) recording)).
Proof.
  split; [|split].
  - apply (proj1 (event_turn_errors sample_frame startup ltac:(by eexists))).
    reflexivity.
  - apply (proj1 (proj2 (event_turn_errors sample_frame recording ltac:(by eexists))
                    eq_refl _)).
    reflexivity.
  - apply (proj1 (proj2 (proj2 (event_turn_errors
                                  [("frame_number", JInt (-1));
                                   ("adjustment", JInt 1); ("attenuation", JInt 7)]
                                  recording ltac:(by eexists))
                           eq_refl _))).
    reflexivity.
Defined.

Lemma timeout_close_exact_witness :
  exists w',
    _handle_status (status_message 2 7 10) recording = (Ok tt, w') /\
    h5f w' = (if (timeout_rbv recording <? 10) && (1 <? 7) && connected recording
              then HDFAdapter._close_file (h5f recording) else h5f recording) /\
    file_open w' = (if (timeout_rbv recording <? 10) && (1 <? 7) && connected recording
                    then 0 else file_open recording) /\
    stdout w' = stdout recording ++
      (if (timeout_rbv recording <? 10) && (1 <? 7) && negb (connected recording)
       then ["Not connected to device. Try again once connection resumed."] else []) /\
    timeout_rbv w' = timeout_rbv recording.
Proof.
  apply (timeout_close_exact _ recording 2 10 7).
  - all_fields.
  - reflexivity.
  - reflexivity.
  - reflexivity.
Defined.

Lemma timeout_applies_when_connected_witness :
  timeout_rbv (snd (_set_timeout 5 recording)) = 5 /\
  timeout_rbv (snd (_set_timeout 5 (set_connected false recording))) = 3 /\
  (exists w2,
     _handle_status (status_message 2 7 4) (snd (_set_timeout 5 recording)) = (Ok tt, w2) /\
     h5f w2 = h5f recording) /\
  (exists w2,
     _handle_status (status_message 2 7 4) (snd (_set_timeout 1 recording)) = (Ok tt, w2) /\
     h5f w2 = HDFAdapter._close_file (h5f recording)).
Proof.
  split; [|split; [|split]].
  - exact (proj1 (proj2 (timeout_applies_when_connected 5 recording))).
  - exact (proj1 (proj2 (timeout_applies_when_connected 5 (set_connected false recording)))).
  - apply (proj2 (proj2 (proj2 (proj2 (proj2 (timeout_applies_when_connected 5 recording)))))
             eq_refl _ 2 4 7); [all_fields|reflexivity..].
  - apply (proj2 (proj2 (proj2 (proj2 (proj2 (timeout_applies_when_connected 1 recording)))))
             eq_refl _ 2 4 7); [all_fields|reflexivity..].
Defined.

Lemma shutter_position_is_saved_witness :
  fst (_set_shutter_pos 40 SHUTTER_CLOSED startup) = Ok tt /\
  assoc "PFC:SHUTTER:CLOSED"
    (_autosave_dict (snd (_set_shutter_pos 40 SHUTTER_CLOSED startup))) = Some 40 /\
  written_files (snd (_set_shutter_pos 40 SHUTTER_CLOSED startup))
  = [("/ioc/autosave.txt", [("PFC:SHUTTER:CLOSED", 40)]);
     ("/ioc/autosave-20240101-12.txt", [("PFC:SHUTTER:CLOSED", 40)])].
Proof.
  split; [|split].
  - exact (proj1 (shutter_position_is_saved 40 SHUTTER_CLOSED startup)).
  - exact (proj1 (proj2 (shutter_position_is_saved 40 SHUTTER_CLOSED startup))).
  - exact (proj1 (proj2 (proj2 (proj2 (shutter_position_is_saved 40 SHUTTER_CLOSED startup))))).
Defined.

End SupervisionProofs.

(** ** More on the legacy recorder *)
Module LegacyFileProofs.
Import Legacy LegacyProofs.

Lemma rsplit_slash_none s :
  "/"%char ∉ list_ascii_of_string s -> rsplit_slash s = None.
Proof.
  induction s as [|c s IH]; simpl; intros Hn; [done|].
  rewrite IH by (intros Hin; apply Hn; by right).
  destruct (Ascii.eqb_spec c "/"%char) as [->|Hc]; [|done].
  exfalso. apply Hn. by left.
Qed.

Lemma rsplit_slash_last parent name :
  "/"%char ∉ list_ascii_of_string name ->
  rsplit_slash (parent +:+ "/" +:+ name) = Some (parent, name).
Proof.
  intros Hn. induction parent as [|c parent IH]; simpl.
  - by rewrite rsplit_slash_none.
  - change (parent +:+ String "/" name) with (parent +:+ "/" +:+ name).
    by rewrite IH.
Qed.

Ltac not_among :=
  let Hin := fresh "Hin" in
  intros Hin; simpl in Hin;
  repeat (apply elem_of_cons in Hin as [Hin|Hin]; [discriminate Hin|]);
  by apply elem_of_nil in Hin.

Lemma eqb_nonempty s : s <> "" -> String.eqb s "" = false.
Proof. intros Hs. by apply String.eqb_neq. Qed.

(** X10. [_check_path] on a path that is not a directory yet, path and
    name being non-empty: a path without a slash raises [IndexError]
    (there is no second part of the split); with a slash, a missing parent
    gives [False], and an existing parent gives [True] after
    [os.makedirs] was called on the last component alone. *)
Theorem check_path_of_missing_directory w :
  file_path w <> "" -> file_name w <> "" ->
  file_path w ∉ dirs (os w) ->
  ("/"%char ∉ list_ascii_of_string (file_path w) ->
   _check_path w = (Raise IndexError, w)) /\
  (forall parent name,
     file_path w = parent +:+ "/" +:+ name ->
     "/"%char ∉ list_ascii_of_string name ->
     (parent ∉ dirs (os w) ->
      _check_path w
      = (Ok false, set_stdout (stdout w ++ ["Path not found. Enter a valid path."]) w)) /\
     (parent ∈ dirs (os w) ->
      exists w',
        _check_path w = (Ok true, w') /\
        dirs (os w') = name :: dirs (os w) /\
        h5f w' = h5f w /\ file_full_name w' = file_full_name w)).
Proof.
  intros Hp Hn Hd.
  assert (Hhead : _check_path w
    = (let parts := rsplit_slash (file_path w) in
       let parent_path := match parts with Some (a, _) => a | None => file_path w end in
       dir_name <- lift (match parts with Some (_, b) => Ok b | None => Raise IndexError end) ;;
       if negb (os_path_isdir parent_path w) then
         print "Path not found. Enter a valid path." ;;; ret false
       else
         print "Parent path exists, making new dir" ;;; os_makedirs dir_name ;;; ret true) w).
  { unfold _check_path. unfold bind at 1. unfold get at 1.
    rewrite (eqb_nonempty _ Hp), (eqb_nonempty _ Hn). simpl.
    unfold os_path_isdir at 1. rewrite bool_decide_eq_false_2 by done. done. }
  rewrite Hhead. clear Hhead. split.
  - intros Hs. rewrite (rsplit_slash_none _ Hs). done.
  - intros parent name Hpath Hname. rewrite Hpath, (rsplit_slash_last _ _ Hname).
    cbv zeta. unfold bind at 1. unfold lift at 1. unfold os_path_isdir.
    split; intros Hpar.
    + rewrite bool_decide_eq_false_2 by done. done.
    + rewrite bool_decide_eq_true_2 by done. simpl.
      eexists. split; [reflexivity|]. done.
Qed.

Lemma _check_path_keeps_h5f w : h5f (snd (_check_path w)) = h5f w.
Proof.
  unfold _check_path, _combine_file_path_and_name, os_makedirs, print.
  unfold bind, get, modify, ret, lift.
  destruct (String.eqb (file_path w) "" || String.eqb (file_name w) ""); [done|].
  destruct (negb (os_path_isdir (file_path w) w)).
  - destruct (rsplit_slash (file_path w)) as [[a b]|]; simpl; [|done].
    destruct (negb (os_path_isdir a w)); done.
  - destruct (os_path_isfile (file_full_name w) w); done.
Qed.

(** X11. [_open_file] answers [True] whenever no file is open, also when
    the path check failed and nothing was opened: the frame branch of the
    monitor, which writes when the answer is [True], then fails the
    assertion at the head of [_write_to_hdf5]. *)
Theorem open_reports_success_without_file fuel data w w1 :
  h5f w = None ->
  _check_path w = (Ok false, w1) ->
  _open_file w = (Ok true, w1) /\
  h5f w1 = None /\
  (file_open <- _open_file ;;
   if file_open then _write_to_hdf5 fuel data else ret tt) w
  = (Raise AssertionError, w1).
Proof.
  intros Hf Hc.
  assert (Hf1 : h5f w1 = None).
  { pose proof (_check_path_keeps_h5f w) as Hk. rewrite Hc in Hk. simpl in Hk. congruence. }
  assert (Ho : _open_file w = (Ok true, w1)).
  { unfold _open_file. unfold bind at 1. unfold get at 1. rewrite Hf.
    unfold bind at 1. rewrite Hc. done. }
  split; [done|]. split; [done|].
  rewrite (bind_run _ _ _ _ _ Ho). unfold _write_to_hdf5.
  unfold bind at 1. unfold the_file. rewrite Hf1. done.
Qed.

(** X12. Closing and opening again, with path and name unchanged and the
    directory in place, does not reopen the file just written: since that
    file exists, the full name is recombined from the name stripped of the
    characters of ".h5" and the time of day, and a new, empty file of that
    name is opened; the name record keeps its value. *)
Theorem reopening_starts_a_timestamped_file w f :
  h5f w = Some f ->
  file_path w <> "" -> file_name w <> "" ->
  file_path w ∈ dirs (os w) ->
  file_full_name w ∈ files (os w) ->
  let stamped := file_path w +:+ "/" +:+
                 (py_strip ".h5" (file_name w) +:+ ("-" +:+ clock (os w) +:+ ".h5")) in
  exists w',
    (_close_file ;;; _open_file) w = (Ok true, w') /\
    h5f w' = Some {| filename := stamped; datasets := ∅ |} /\
    file_full_name w' = stamped /\
    file_name w' = file_name w /\
    files (os w') = stamped :: files (os w).
Proof.
  intros Hf Hp Hn Hd Hfile stamped.
  unfold _close_file, the_file, _open_file, _check_path,
    _combine_file_path_and_name, h5py_File, print.
  unfold bind, get, modify, ret, lift. rewrite Hf. simpl.
  rewrite (eqb_nonempty _ Hp), (eqb_nonempty _ Hn). simpl.
  unfold os_path_isdir, os_path_isfile. simpl.
  rewrite (bool_decide_eq_true_2 _ Hd). simpl.
  rewrite (bool_decide_eq_true_2 _ Hfile). simpl.
  eexists. split; [reflexivity|]. done.
Qed.

Lemma grow_size_short fuel : forall s N,
  0 <= s <= N -> N < int64_max -> Z.of_nat fuel <= N - s ->
  grow_size fuel s N = Diverge.
Proof.
  induction fuel as [|fuel IH]; intros s N Hs HN Hfuel; simpl;
    (destruct (Z.leb_spec s N); [|lia]); [done|].
  rewrite wrap64_small.
  2:{ unfold in_int64, int64_min, int64_max in *.
      apply andb_true_iff; split; apply Z.leb_le; lia. }
  apply IH; lia.
Qed.

Lemma dset_setitem_returns i v d : dset_setitem i v d <> Diverge.
Proof.
  unfold dset_setitem. destruct (negb (in_int64 v)); [done|].
  by destruct ((0 <=? _) && _).
Qed.

(** The write up to its growth step: both datasets are in place. *)
Lemma write_until_growth fuel data w f :
  h5f w = Some f ->
  length (effective f ADJUSTMENT_KEY) = length (effective f ATTENUATION_KEY) ->
  exists f2,
    datasets f2 !! ADJUSTMENT_KEY = Some (effective f ADJUSTMENT_KEY) /\
    datasets f2 !! ATTENUATION_KEY = Some (effective f ATTENUATION_KEY) /\
    _write_to_hdf5 fuel data w
    = ((if Z.of_nat (length (effective f ADJUSTMENT_KEY)) <=? frame_number data then
          dset_size <- lift (grow_size fuel (Z.of_nat (length (effective f ADJUSTMENT_KEY)))
                               (frame_number data)) ;;
          update_file (resize_dataset ADJUSTMENT_KEY dset_size) ;;;
          update_file (resize_dataset ATTENUATION_KEY dset_size)
        else ret tt) ;;;
       setitem_dataset ADJUSTMENT_KEY (frame_number data) (adjustment data) ;;;
       setitem_dataset ATTENUATION_KEY (frame_number data) (attenuation data))
        (set_h5f (Some f2) w).
Proof.
  intros Hf Hlen.
  exists (ensured ATTENUATION_KEY (ensured ADJUSTMENT_KEY f)).
  assert (Hadj : datasets (ensured ATTENUATION_KEY (ensured ADJUSTMENT_KEY f)) !! ADJUSTMENT_KEY
                 = Some (effective f ADJUSTMENT_KEY)).
  { unfold ensured. simpl. rewrite lookup_insert_ne by keys. by rewrite lookup_insert_eq. }
  assert (Hatt : datasets (ensured ATTENUATION_KEY (ensured ADJUSTMENT_KEY f)) !! ATTENUATION_KEY
                 = Some (effective f ATTENUATION_KEY)).
  { unfold ensured at 1. simpl. rewrite lookup_insert_eq.
    by rewrite effective_ensured_ne by keys. }
  split; [done|]. split; [done|].
  rewrite (open_state w f Hf) at 1. unfold _write_to_hdf5.
  rewrite (bind_run _ _ _ _ _ (the_file_run _ _)).
  rewrite (bind_run _ _ _ _ _ (ensure_run _ _ _)).
  rewrite (bind_run _ _ _ _ _ (the_file_run _ _)).
  rewrite (bind_run _ _ _ _ _ (ensure_run _ _ _)).
  rewrite (bind_run _ _ _ _ _ (get_dataset_run _ _ _ _ Hadj)).
  rewrite (bind_run _ _ _ _ _ (get_dataset_run _ _ _ _ Hatt)).
  rewrite bool_decide_eq_true_2 by done.
  unfold ret at 1. unfold bind at 1. done.
Qed.

Lemma setitem_returns key i v f d w :
  datasets f !! key = Some d ->
  fst (setitem_dataset key i v (set_h5f (Some f) w)) <> Diverge.
Proof.
  intros Hd. unfold setitem_dataset.
  rewrite (bind_run _ _ _ _ _ (get_dataset_run key f d w Hd)).
  unfold bind, lift. pose proof (dset_setitem_returns i v d).
  destruct (dset_setitem i v d); done.
Qed.

(** X13. A write that has to grow the table takes one turn of the growth
    loop per missing slot: on an open table shorter than the frame number
    requires, the write fails to return within [fuel] turns exactly when
    the frame number is 2^63 - 1 or more (the 64-bit counter wraps and
    never passes it) or the number of missing slots exceeds [fuel]. *)
Theorem growth_takes_a_turn_per_slot fuel data w adj att :
  OpenTable w adj att ->
  Z.of_nat (length adj) <= frame_number data ->
  fst (_write_to_hdf5 fuel data w) = Diverge <->
  int64_max <= frame_number data \/
  Z.of_nat fuel <= frame_number data - Z.of_nat (length adj).
Proof.
  intros (f & Hf & <- & <- & Hlen & Hmax) Hshort.
  destruct (write_until_growth fuel data w f Hf Hlen) as (f2 & Hadj & Hatt & ->).
  set (adj := effective f ADJUSTMENT_KEY) in *.
  set (att := effective f ATTENUATION_KEY) in *.
  destruct (Z.leb_spec (Z.of_nat (length adj)) (frame_number data)) as [_|]; [|lia].
  assert (Hin : in_int64 (Z.of_nat (length adj)) = true).
  { unfold in_int64, int64_min. apply andb_true_iff; split; apply Z.leb_le; lia. }
  split.
  - intros Hdiv.
    destruct (Z.le_gt_cases int64_max (frame_number data)) as [|HN]; [by left|].
    destruct (Z.le_gt_cases (Z.of_nat fuel) (frame_number data - Z.of_nat (length adj)))
      as [|Hfuel]; [by right|].
    exfalso. revert Hdiv.
    unfold bind at 1. unfold bind at 1. unfold lift at 1.
    rewrite grow_size_total by lia.
    rewrite (bind_run _ _ _ _ _ (update_file_run _ _ _)), update_file_run.
    set (f3 := resize_dataset ATTENUATION_KEY _ _).
    assert (Hadj3 : is_Some (datasets f3 !! ADJUSTMENT_KEY)).
    { subst f3. simpl. rewrite lookup_alter_ne by keys.
      rewrite lookup_alter_eq, Hadj. by eexists. }
    assert (Hatt3 : is_Some (datasets f3 !! ATTENUATION_KEY)).
    { subst f3. simpl. rewrite lookup_alter_eq.
      rewrite lookup_alter_ne by keys. rewrite Hatt. by eexists. }
    clearbody f3. destruct Hadj3 as [d1 Hd1]. destruct Hatt3 as [d2 Hd2].
    unfold bind at 1.
    pose proof (setitem_returns ADJUSTMENT_KEY (frame_number data) (adjustment data)
                  f3 d1 w Hd1) as Hs1.
    unfold setitem_dataset at 1.
    rewrite (bind_run _ _ _ _ _ (get_dataset_run _ _ _ _ Hd1)).
    unfold bind at 1. unfold lift at 1.
    destruct (dset_setitem (frame_number data) (adjustment data) d1) as [d1'| |] eqn:E1;
      [|done|by destruct (dset_setitem_returns _ _ _ E1)].
    rewrite update_file_run.
    apply (setitem_returns ATTENUATION_KEY _ _ _ d2).
    simpl. by rewrite lookup_insert_ne by keys.
  - intros [HN|Hfuel].
    + unfold bind at 1. unfold bind at 1. unfold lift at 1.
      by rewrite grow_size_never_ends.
    + destruct (Z.le_gt_cases int64_max (frame_number data)) as [HN|HN].
      * unfold bind at 1. unfold bind at 1. unfold lift at 1.
        by rewrite grow_size_never_ends.
      * unfold bind at 1. unfold bind at 1. unfold lift at 1.
        rewrite grow_size_short by lia. done.
Qed.

Lemma check_path_of_missing_directory_witness :
  _check_path (LegacyCommands.set_file_path "run1" startup)
  = (Raise IndexError, LegacyCommands.set_file_path "run1" startup) /\
  _check_path (LegacyCommands.set_file_path "/scratch/run1" startup)
  = (Ok false,
     set_stdout (stdout (LegacyCommands.set_file_path "/scratch/run1" startup)
                 ++ ["Path not found. Enter a valid path."])
       (LegacyCommands.set_file_path "/scratch/run1" startup)) /\
  exists w',
    _check_path (LegacyCommands.set_file_path "/data/run1" startup) = (Ok true, w') /\
    dirs (os w') = "run1" :: dirs (os (LegacyCommands.set_file_path "/data/run1" startup)) /\
    h5f w' = h5f (LegacyCommands.set_file_path "/data/run1" startup) /\
    file_full_name w' = file_full_name (LegacyCommands.set_file_path "/data/run1" startup).
Proof.
  split; [|split].
  - apply (proj1 (check_path_of_missing_directory
                    (LegacyCommands.set_file_path "run1" startup)
                    ltac:(discriminate) ltac:(discriminate) ltac:(not_among))).
    not_among.
  - apply (proj2 (check_path_of_missing_directory
                    (LegacyCommands.set_file_path "/scratch/run1" startup)
                    ltac:(discriminate) ltac:(discriminate) ltac:(not_among))
             "/scratch" "run1" eq_refl ltac:(not_among)).
    not_among.
  - apply (proj2 (check_path_of_missing_directory
                    (LegacyCommands.set_file_path "/data/run1" startup)
                    ltac:(discriminate) ltac:(discriminate) ltac:(not_among))
             "/data" "run1" eq_refl ltac:(not_among)).
    apply elem_of_cons. by left.
Defined.

Lemma open_reports_success_without_file_witness :
  _open_file (LegacyCommands.set_file_name "" startup)
  = (Ok true, snd (_check_path (LegacyCommands.set_file_name "" startup))) /\
  h5f (snd (_check_path (LegacyCommands.set_file_name "" startup))) = None /\
  (file_open <- _open_file ;;
   if file_open then _write_to_hdf5 200 (frame 5 1 7) else ret tt)
    (LegacyCommands.set_file_name "" startup)
  = (Raise AssertionError, snd (_check_path (LegacyCommands.set_file_name "" startup))).
Proof.
  apply (open_reports_success_without_file 200 (frame 5 1 7)
           (LegacyCommands.set_file_name "" startup)).
  - reflexivity.
  - reflexivity.
Defined.

Lemma reopening_starts_a_timestamped_file_witness :
  exists w',
    (_close_file ;;; _open_file) recording = (Ok true, w') /\
    h5f w' = Some {| filename := "/data/tmp-12:00:00.h5"; datasets := ∅ |} /\
    file_full_name w' = "/data/tmp-12:00:00.h5" /\
    file_name w' = file_name recording /\
    files (os w') = "/data/tmp-12:00:00.h5" :: files (os recording).
Proof.
  apply (reopening_starts_a_timestamped_file recording
           {| filename := "/data/tmp.h5"; datasets := ∅ |}).
  - reflexivity.
  - discriminate.
  - discriminate.
  - apply elem_of_cons. by left.
  - apply elem_of_cons. by left.
Defined.

Lemma growth_takes_a_turn_per_slot_witness :
  fst (_write_to_hdf5 2 (frame 130 1 7) recording) = Diverge <->
  int64_max <= frame_number (frame 130 1 7) \/
  Z.of_nat 2 <= frame_number (frame 130 1 7) - Z.of_nat (length (replicate 128 0)).
Proof.
  apply (growth_takes_a_turn_per_slot 2 (frame 130 1 7) recording
           (replicate 128 0) (replicate 128 0)).
  - apply (open_fresh recording {| filename := "/data/tmp.h5"; datasets := ∅ |});
      reflexivity.
  - simpl. lia.
Defined.

End LegacyFileProofs.

(** ** The legacy wrapper's commands *)
Module LegacyCommandProofs.
Import Legacy LegacyCommands.

Lemma _if_connected_offline {A} (func : M Session A) s :
  connected (wrapper s) = false ->
  _if_connected func s
  = (Ok Wrapper.ReturnedTrue,
     set_wrapper
       (Legacy.set_stdout
          (stdout (wrapper s)
           ++ ["Not connected to device. Try again once connection resumed."])
          (wrapper s)) s).
Proof. intros Hc. unfold _if_connected, bind, get. rewrite Hc. done. Qed.

Lemma _if_connected_online {A} (func : M Session A) s :
  connected (wrapper s) = true ->
  _if_connected func s
  = bind func (fun a => ret (Wrapper.Returned a)) s.
Proof. intros Hc. unfold _if_connected. unfold bind at 1. unfold get. rewrite Hc. done. Qed.

(** X14. None of the sixteen functions the legacy wrapper puts under
    [@_if_connected] does anything while the wrapper is not connected:
    whatever the arguments, the call returns [True] and leaves [self] as
    it was but for one printed line; no message is sent, no record set, no
    file written. *)
Theorem guarded_callbacks_idle_offline (c : callback) s :
  connected (wrapper s) = false ->
  call c s
  = (Ok Wrapper.ReturnedTrue,
     set_wrapper
       (Legacy.set_stdout
          (stdout (wrapper s)
           ++ ["Not connected to device. Try again once connection resumed."])
          (wrapper s)) s).
Proof. intros Hc. destruct c; apply (_if_connected_offline _ s Hc). Qed.

(** X15. After a missed reply the legacy poller only sleeps: however many
    turns it waits, it sends no further status request, prints nothing and
    changes nothing, and it leaves the wait only once [status_recv] has
    been set by someone else. *)
Theorem legacy_wait_sends_nothing runs : forall s,
  status_recv (wrapper s) = false ->
  poll_turns runs Wrapper.Reconnecting s = (Ok Wrapper.Reconnecting, s).
Proof.
  induction runs as [|r runs IH]; intros s Hr; [done|].
  cbn [poll_turns]. unfold bind at 1. unfold _query_status.
  unfold bind at 1. unfold get at 1. rewrite Hr. simpl. by apply IH.
Qed.

Lemma sets_only_bind (P : pv -> Prop) {A B} (m : M Wrapper A) (k : A -> M Wrapper B) :
  sets_only P m -> (forall a, sets_only P (k a)) -> sets_only P (bind m k).
Proof.
  intros Hm Hk w. unfold bind. destruct (Hm w) as (l1 & H1 & HP1).
  destruct (m w) as [[a|e|] w1]; simpl in *; [|by exists l1|by exists l1].
  destruct (Hk a w1) as (l2 & H2 & HP2). exists (l1 ++ l2).
  rewrite H2, H1, app_assoc. split; [done|]. by apply Forall_app.
Qed.

Lemma sets_only_still (P : pv -> Prop) {A} (m : M Wrapper A) :
  preserves sink m -> sets_only P m.
Proof. intros Hm w. exists []. rewrite app_nil_r. split; [apply Hm | done]. Qed.

Lemma sets_only_publish (P : pv -> Prop) r v : P r -> sets_only P (publish r v).
Proof. intros HP w. exists [(r, v)]. split; [done|]. by constructor. Qed.

Lemma sets_only_if (P : pv -> Prop) {A} (b : bool) (m1 m2 : M Wrapper A) :
  sets_only P m1 -> sets_only P m2 -> sets_only P (if b then m1 else m2).
Proof. by destruct b. Qed.

Lemma _close_file_preserves {C} (field : Wrapper -> C) :
  (forall v w, field (set_h5f v w) = field w) -> preserves field _close_file.
Proof.
  intros Hf w. unfold _close_file, bind, the_file, modify.
  destruct (h5f w); simpl; [apply Hf | done].
Qed.

Ltac sets_only_step :=
  first
    [ apply sets_only_bind; [|intros ?]
    | apply sets_only_if
    | apply sets_only_publish; done
    | apply sets_only_still;
      repeat first [ apply _close_file_preserves; done
                   | unfold Legacy.print; preserves_step ] ].

(** What the legacy handler does to the STATE record. *)
Lemma legacy_status_sets_state status v w :
  py_getitem status "state" = Ok v ->
  exists rest,
    sink (snd (Legacy._handle_status status w))
    = sink w ++ (STATE, Verbatim v) :: rest /\
    Forall (fun entry => entry.1 <> STATE) rest.
Proof.
  intros Hs. unfold Legacy._handle_status.
  unfold bind at 1. unfold lift at 1. rewrite Hs.
  unfold bind at 1. unfold publish at 1. unfold modify at 1.
  match goal with |- context [sink (snd (?m ?w1))] =>
    assert (Htail : sets_only (fun r => r <> STATE) m) end.
  { repeat sets_only_step. }
  match goal with |- context [sink (snd (?m ?w1))] =>
    destruct (Htail w1) as (rest & Hrest & HP) end.
  exists rest. rewrite Hrest. simpl. rewrite <- app_assoc. done.
Qed.

Lemma legacy_status_preserves_connected status :
  preserves connected (Legacy._handle_status status).
Proof.
  unfold Legacy._handle_status, publish, Legacy.print.
  repeat first [ apply _close_file_preserves; done | preserves_step ].
Qed.

Lemma omap_nothing {A B} (f : A -> option B) (l : list A) :
  Forall (fun x => f x = None) l -> omap f l = [].
Proof.
  induction 1 as [|x l Hx _ IH]; [done|].
  change (omap f (x :: l)) with (match f x with Some y => y :: omap f l | None => omap f l end).
  by rewrite Hx.
Qed.

Lemma record_get_last r v w entries rest :
  sink w = entries ++ (r, v) :: rest ->
  Forall (fun entry => entry.1 <> r) rest ->
  record_get r w = v.
Proof.
  intros Hs Hrest. unfold record_get. rewrite Hs.
  set (f := fun entry : pv * sinkval => if decide (entry.1 = r) then Some entry.2 else None).
  rewrite omap_app.
  change (omap f ((r, v) :: rest))
    with (match f (r, v) with Some y => y :: omap f rest | None => omap f rest end).
  assert (Hf : f (r, v) = Some v) by (unfold f; simpl; by rewrite decide_True).
  rewrite Hf, (omap_nothing f rest).
  - by rewrite last_snoc.
  - eapply Forall_impl; [exact Hrest|]. intros [r' v'] Hne. unfold f. simpl in *.
    by rewrite decide_False.
Qed.

(** X16. The manual attenuation and the single-shot start go by the state
    code of the last status handled: with the wrapper connected, after a
    status whose state is the integer [st], one of the sixteen values the
    STATE record can hold, [_set_manual_attenuation]
    sends its configure command exactly when [st] is 0 and the mode
    read-back is 0, and [_start_singleshot(1)] sends its command exactly
    when [st] is 1 and the mode read-back is 2; otherwise neither sends
    anything. Both calls return. *)
Theorem commands_follow_reported_state status (st attenuation : Z) s :
  connected (wrapper s) = true ->
  py_getitem status "state" = Ok (JInt st) ->
  0 <= st < 16 ->
  let s1 := snd (on_wrapper (Legacy._handle_status status) s) in
  fst (_set_manual_attenuation attenuation s1) = Ok (Wrapper.Returned tt) /\
  sent (snd (_set_manual_attenuation attenuation s1))
  = sent s ++ (if (st =? 0) && (mode_rbv s =? 0)
               then [configure [("attenuation", JInt attenuation)]] else []) /\
  fst (_start_singleshot 1 s1) = Ok (Wrapper.Returned tt) /\
  sent (snd (_start_singleshot 1 s1))
  = sent s ++ (if (st =? 1) && (mode_rbv s =? 2)
               then [JDict [("command", JStr "singleshot")]] else []).
Proof.
  intros Hc Hs _ s1.
  destruct (legacy_status_sets_state status (JInt st) (wrapper s) Hs) as (rest & Hsink & Hrest).
  pose proof (legacy_status_preserves_connected status (wrapper s)) as Hc1.
  assert (Hw1 : wrapper s1 = snd (Legacy._handle_status status (wrapper s))).
  { subst s1. unfold on_wrapper. by destruct (Legacy._handle_status status (wrapper s)). }
  assert (Hsent1 : sent s1 = sent s).
  { subst s1. unfold on_wrapper. by destruct (Legacy._handle_status status (wrapper s)). }
  assert (Hmode1 : mode_rbv s1 = mode_rbv s).
  { subst s1. unfold on_wrapper. by destruct (Legacy._handle_status status (wrapper s)). }
  assert (Hconn : connected (wrapper s1) = true) by (rewrite Hw1; congruence).
  assert (Hstate : record_get STATE (wrapper s1) = Verbatim (JInt st)).
  { rewrite Hw1. eapply record_get_last; [exact Hsink | exact Hrest]. }
  clearbody s1.
  unfold _set_manual_attenuation, _start_singleshot.
  rewrite !(_if_connected_online _ s1 Hconn).
  unfold bind, get, ret, _send_message, modify, print, on_wrapper. simpl.
  rewrite Hstate, Hmode1. simpl.
  destruct (st =? 0), (st =? 1), (mode_rbv s =? 0), (mode_rbv s =? 2);
    simpl; rewrite ?Hsent1, ?app_nil_r; done.
Qed.

Lemma set_threshold_spec key label threshold current s :
  connected (wrapper s) = true ->
  assoc key (pixel_count_thresholds s) = Some current ->
  exists s1,
    set_threshold key label threshold s = (Ok (Wrapper.Returned tt), s1) /\
    connected (wrapper s1) = true /\
    pixel_count_thresholds s1
    = (if threshold =? current then pixel_count_thresholds s
       else dict_set key threshold (pixel_count_thresholds s)) /\
    sent s1
    = sent s ++
      (if threshold =? current then []
       else [configure [("pixel_count_thresholds",
                         JDict (map (fun item => (item.1, JInt item.2))
                                  (dict_set key threshold (pixel_count_thresholds s))))]]).
Proof.
  intros Hc Hk. unfold set_threshold. rewrite (_if_connected_online _ s Hc).
  unfold threshold_of. unfold bind at 1. unfold bind at 1. unfold bind at 1.
  unfold get at 1. rewrite Hk. unfold ret at 1.
  destruct (threshold =? current); simpl.
  - exists (match label with
            | Some name => snd (print (name +:+ " is already at value " +:+ pretty threshold +:+ ".") s)
            | None => s
            end).
    destruct label; simpl; rewrite ?app_nil_r; done.
  - unfold bind at 1. unfold modify at 1.
    unfold _set_thresholds.
    set (s' := set_pixel_count_thresholds _ s).
    assert (Hc' : connected (wrapper s') = true) by done.
    unfold bind at 1. rewrite (_if_connected_online _ s' Hc').
    unfold bind, get, _send_message, modify, ret. simpl.
    eexists. split; [reflexivity|]. done.
Qed.

(** X17. A threshold setter sends the thresholds when, and only when, the
    value differs from the one held: connected, with the key in the
    dictionary, the call returns, the dictionary then holds the value
    under that key and the other keys as before, one configure message
    carrying the whole dictionary is sent if the value is new and none if
    it is not, and a second call with the same value sends nothing. *)
Theorem threshold_sent_when_changed key setter (threshold current : Z) s :
  (key, setter) ∈ threshold_setters ->
  connected (wrapper s) = true ->
  assoc key (pixel_count_thresholds s) = Some current ->
  let s1 := snd (setter threshold s) in
  fst (setter threshold s) = Ok (Wrapper.Returned tt) /\
  assoc key (pixel_count_thresholds s1) = Some threshold /\
  (forall other, other <> key ->
     assoc other (pixel_count_thresholds s1) = assoc other (pixel_count_thresholds s)) /\
  sent s1
  = sent s ++
    (if threshold =? current then []
     else [configure [("pixel_count_thresholds",
                       JDict (map (fun item => (item.1, JInt item.2))
                                (pixel_count_thresholds s1)))]]) /\
  fst (setter threshold s1) = Ok (Wrapper.Returned tt) /\
  sent (snd (setter threshold s1)) = sent s1.
Proof.
  intros Hin Hc Hk s1.
  assert (Hset : exists label, setter = set_threshold key label).
  { unfold threshold_setters in Hin.
    repeat (apply elem_of_cons in Hin as [Hin|Hin];
            [injection Hin as -> ->; eexists; reflexivity|]).
    by apply elem_of_nil in Hin. }
  destruct Hset as [label ->].
  destruct (set_threshold_spec key label threshold current s Hc Hk)
    as (s1' & Hrun & Hc1 & Hth & Hsent).
  assert (Hs1 : s1 = s1') by (subst s1; by rewrite Hrun). clearbody s1. subst s1'.
  assert (Hk1 : assoc key (pixel_count_thresholds s1) = Some threshold).
  { rewrite Hth. destruct (Z.eqb_spec threshold current) as [->|_]; [done|].
    apply assoc_dict_set_eq. }
  destruct (set_threshold_spec key label threshold threshold s1 Hc1 Hk1)
    as (s2 & Hrun2 & _ & _ & Hsent2).
  rewrite Hrun, Hrun2. simpl. rewrite Z.eqb_refl, app_nil_r in Hsent2.
  split; [done|]. split; [done|]. split.
  { intros other Hne. rewrite Hth. destruct (threshold =? current); [done|].
    by apply assoc_dict_set_ne. }
  split; [|done].
  rewrite Hsent, Hth. by destruct (threshold =? current).
Qed.

Lemma filter_key_inj (a b : string) : "filter" +:+ a = "filter" +:+ b -> a = b.
Proof. simpl. intros Heq. by injection Heq. Qed.

Lemma positions_lookup (records : list (string * Z)) : forall j record,
  records !! j = Some record ->
  match positions records with
  | JDict items => assoc ("filter" +:+ pretty (S j)) items = Some (JInt record.2)
  | _ => False
  end.
Proof.
  unfold positions.
  assert (Hgen : forall (records : list (string * Z)) (base j : nat) record,
    records !! j = Some record ->
    assoc ("filter" +:+ pretty (S (base + j)))
      (imap (fun id record => ("filter" +:+ pretty (S (base + id)), JInt record.2)) records)
    = Some (JInt record.2)).
  { clear records. induction records as [|r records IH]; intros base j record Hj; [done|].
    rewrite imap_cons. cbn [assoc]. rewrite Nat.add_0_r.
    destruct j as [|j].
    - injection Hj as ->. by rewrite Nat.add_0_r, String.eqb_refl.
    - destruct (String.eqb_spec ("filter" +:+ pretty (S base))
                  ("filter" +:+ pretty (S (base + S j)))) as [Heq|_].
      { apply filter_key_inj, (inj pretty) in Heq. lia. }
      specialize (IH (S base) j record Hj).
      replace (S base + j)%nat with (base + S j)%nat in IH by lia.
      rewrite <- IH. f_equal. apply imap_ext. intros i x _. simpl.
      by replace (base + S i)%nat with (S (base + i))%nat by lia. }
  intros j record Hj. exact (Hgen records 0%nat j record Hj).
Qed.

(** X18. Selecting a filter set, connected: when the position records of
    set [n + 1] exist, one configure message is sent that lists, for the
    in- and the out-positions alike, the value of the j-th record under
    the key "filterj", and the read-back becomes [n]; when the wrapper was
    not built with that many filter sets, the lookup raises [KeyError],
    nothing is sent and the read-back keeps its value. *)
Theorem filter_set_positions_sent (n : Z) s :
  connected (wrapper s) = true ->
  let name := "filter_set_" +:+ pretty (n + 1) in
  (forall in_records out_records,
     assoc name (filter_sets_in s) = Some in_records ->
     assoc name (filter_sets_out s) = Some out_records ->
     exists s' in_items out_items,
       _set_filter_set n s = (Ok (Wrapper.Returned tt), s') /\
       sent s' = sent s ++ [configure [("in_positions", JDict in_items);
                                       ("out_positions", JDict out_items)]] /\
       filter_set_rbv s' = n /\
       length in_items = length in_records /\
       length out_items = length out_records /\
       (forall j record, in_records !! j = Some record ->
          assoc ("filter" +:+ pretty (S j)) in_items = Some (JInt record.2)) /\
       (forall j record, out_records !! j = Some record ->
          assoc ("filter" +:+ pretty (S j)) out_items = Some (JInt record.2))) /\
  (assoc name (filter_sets_in s) = None \/ assoc name (filter_sets_out s) = None ->
   _set_filter_set n s = (Raise (KeyError name), s)).
Proof.
  intros Hc name. unfold _set_filter_set. rewrite (_if_connected_online _ s Hc).
  fold name. unfold filter_set_of, bind, get, ret, raise, _send_message, modify.
  split.
  - intros ins outs Hin Hout. rewrite Hin, Hout. simpl.
    eexists _, _, _. split; [reflexivity|]. simpl. split; [done|]. split; [done|].
    rewrite !length_imap. split; [done|]. split; [done|].
    split; intros j record Hj.
    + exact (positions_lookup ins j record Hj).
    + exact (positions_lookup outs j record Hj).
  - intros [Hn|Hn].
    + by rewrite Hn.
    + rewrite Hn. by destruct (assoc name (filter_sets_in s)).
Qed.

Lemma _save_pos_spec s :
  exists s',
    _save_pos s = (Ok tt, s') /\
    saved s' = saved s ++ [(autosave_path s, position_lines s)] /\
    sent s' = sent s /\ filter_set_rbv s' = filter_set_rbv s /\
    connected (wrapper s') = connected (wrapper s).
Proof.
  unfold _save_pos, print, on_wrapper, Legacy.print, bind, modify. simpl.
  eexists. split; [reflexivity|]. done.
Qed.

(** X19. A changed filter position is always written to the autosave
    file, after the device has been told where that matters: connected,
    [_set_pos] for a filter set other than the selected one sends nothing
    and saves the positions of all sets, in-positions first; for the
    selected one it first goes through [_set_filter_set], and saves only
    if that returned, so an exception there leaves the file unwritten. *)
Theorem position_saved_after_device filter_set in_out s :
  connected (wrapper s) = true ->
  (filter_set_rbv s <> filter_set - 1 ->
   exists s',
     _set_pos filter_set in_out s = (Ok (Wrapper.Returned tt), s') /\
     sent s' = sent s /\
     saved s' = saved s ++ [(autosave_path s, position_lines s)]) /\
  (filter_set_rbv s = filter_set - 1 ->
   forall s1,
     (forall r, _set_filter_set (filter_set - 1) s = (Ok r, s1) ->
        exists s',
          _set_pos filter_set in_out s = (Ok (Wrapper.Returned tt), s') /\
          sent s' = sent s1 /\
          saved s' = saved s1 ++ [(autosave_path s1, position_lines s1)]) /\
     (forall e, _set_filter_set (filter_set - 1) s = (Raise e, s1) ->
        _set_pos filter_set in_out s = (Raise e, s1))).
Proof.
  intros Hc. unfold _set_pos. rewrite (_if_connected_online _ s Hc).
  unfold bind, get, ret. split.
  - intros Hne. apply Z.eqb_neq in Hne. rewrite Hne.
    destruct (_save_pos_spec s) as (s' & Hrun & Hsaved & Hsent & _).
    exists s'. rewrite Hrun. done.
  - intros Heq. apply Z.eqb_eq in Heq. rewrite Heq. intros s1. split.
    + intros r Hrun. rewrite Hrun.
      destruct (_save_pos_spec s1) as (s' & Hrun' & Hsaved & Hsent & _).
      exists s'. rewrite Hrun'. done.
    + intros e Hrun. rewrite Hrun. done.
Qed.

(** X20. The full name follows the FILE:NAME record only while connected,
    and an open file does not follow it at all. Connected, with a file
    open, a new name that makes the full name differ from the open file's
    has every later open refused, the open file staying as it is; not
    connected, the record takes the name but the full name stays, so the
    next open goes by the old one. *)
Theorem renaming_while_recording (name : string) s f :
  h5f (wrapper s) = Some f ->
  let s1 := snd (put_file_name name s) in
  file_name (wrapper s1) = name /\
  h5f (wrapper s1) = Some f /\
  (connected (wrapper s) = true ->
   file_full_name (wrapper s1) = file_path (wrapper s) +:+ "/" +:+ name /\
   (file_path (wrapper s) +:+ "/" +:+ name <> filename f ->
    fst (on_wrapper _open_file s1) = Ok false /\
    h5f (wrapper (snd (on_wrapper _open_file s1))) = Some f)) /\
  (connected (wrapper s) = false ->
   file_full_name (wrapper s1) = file_full_name (wrapper s) /\
   (file_full_name (wrapper s) = filename f ->
    fst (on_wrapper _open_file s1) = Ok true /\
    h5f (wrapper (snd (on_wrapper _open_file s1))) = Some f)).
Proof.
  intros Hf s1. subst s1.
  unfold put_file_name, _set_file_name, _if_connected, print, on_wrapper,
    Legacy.print, _combine_file_path_and_name, _open_file.
  unfold bind, get, modify, ret.
  destruct s as [[c sr h fp fn ffn t sk out o] se m fr th fi fo dn ap sv].
  simpl in *. subst h.
  destruct c; simpl; (split; [done|]); (split; [done|]); split; try done.
  - intros _. split; [done|]. intros Hne. apply String.eqb_neq in Hne.
    rewrite Hne. simpl. done.
  - intros _. split; [done|]. intros ->. rewrite String.eqb_refl. simpl. done.
Qed.

Lemma guarded_callbacks_idle_offline_witness :
  call (SetFilterSet 1) startup
  = (Ok Wrapper.ReturnedTrue,
     set_wrapper
       (Legacy.set_stdout
          (stdout (wrapper startup)
           ++ ["Not connected to device. Try again once connection resumed."])
          (wrapper startup)) startup).
Proof. apply (guarded_callbacks_idle_offline (SetFilterSet 1) startup). reflexivity. Defined.

Lemma legacy_wait_sends_nothing_witness :
  poll_turns [true; false; true] Wrapper.Reconnecting
    (set_wrapper (set_status_recv false (wrapper online)) online)
  = (Ok Wrapper.Reconnecting,
     set_wrapper (set_status_recv false (wrapper online)) online).
Proof.
  apply (legacy_wait_sends_nothing [true; false; true]
           (set_wrapper (set_status_recv false (wrapper online)) online)).
  reflexivity.
Defined.

Lemma commands_follow_reported_state_witness :
  fst (_set_manual_attenuation 4
         (snd (on_wrapper (Legacy._handle_status (status_message 0 7 0)) online)))
  = Ok (Wrapper.Returned tt) /\
  sent (snd (_set_manual_attenuation 4
               (snd (on_wrapper (Legacy._handle_status (status_message 0 7 0)) online))))
  = sent online ++ (if (0 =? 0) && (mode_rbv online =? 0)
                    then [configure [("attenuation", JInt 4)]] else []) /\
  fst (_start_singleshot 1
         (snd (on_wrapper (Legacy._handle_status (status_message 0 7 0)) online)))
  = Ok (Wrapper.Returned tt) /\
  sent (snd (_start_singleshot 1
               (snd (on_wrapper (Legacy._handle_status (status_message 0 7 0)) online))))
  = sent online ++ (if (0 =? 1) && (mode_rbv online =? 2)
                    then [JDict [("command", JStr "singleshot")]] else []).
Proof.
  apply (commands_follow_reported_state (status_message 0 7 0) 0 4 online).
  - reflexivity.
  - reflexivity.
  - lia.
Defined.

Lemma threshold_sent_when_changed_witness :
  fst (_set_lower_high_threshold 5 online) = Ok (Wrapper.Returned tt) /\
  assoc "high1" (pixel_count_thresholds (snd (_set_lower_high_threshold 5 online)))
  = Some 5 /\
  (forall other, other <> "high1" ->
     assoc other (pixel_count_thresholds (snd (_set_lower_high_threshold 5 online)))
     = assoc other (pixel_count_thresholds online)) /\
  sent (snd (_set_lower_high_threshold 5 online))
  = sent online ++
    (if 5 =? 2 then []
     else [configure [("pixel_count_thresholds",
                       JDict (map (fun item => (item.1, JInt item.2))
                                (pixel_count_thresholds
                                   (snd (_set_lower_high_threshold 5 online)))))]]) /\
  fst (_set_lower_high_threshold 5 (snd (_set_lower_high_threshold 5 online)))
  = Ok (Wrapper.Returned tt) /\
  sent (snd (_set_lower_high_threshold 5 (snd (_set_lower_high_threshold 5 online))))
  = sent (snd (_set_lower_high_threshold 5 online)).
Proof.
  apply (threshold_sent_when_changed "high1" _set_lower_high_threshold 5 2 online).
  - do 2 (apply elem_of_cons; right). apply elem_of_cons. by left.
  - reflexivity.
  - reflexivity.
Defined.

Lemma filter_set_positions_sent_witness :
  (exists s' in_items out_items,
     _set_filter_set 1 online = (Ok (Wrapper.Returned tt), s') /\
     sent s' = sent online ++ [configure [("in_positions", JDict in_items);
                                          ("out_positions", JDict out_items)]] /\
     filter_set_rbv s' = 1 /\
     length in_items = 2%nat /\ length out_items = 2%nat /\
     (forall j record,
        [("FILTER_SET:2:IN:1", 100); ("FILTER_SET:2:IN:2", 100)] !! j = Some record ->
        assoc ("filter" +:+ pretty (S j)) in_items = Some (JInt record.2)) /\
     (forall j record,
        [("FILTER_SET:2:OUT:1", 0); ("FILTER_SET:2:OUT:2", 0)] !! j = Some record ->
        assoc ("filter" +:+ pretty (S j)) out_items = Some (JInt record.2))) /\
  _set_filter_set 2 online = (Raise (KeyError "filter_set_3"), online).
Proof.
  split.
  - apply (proj1 (filter_set_positions_sent 1 online eq_refl)
             [("FILTER_SET:2:IN:1", 100); ("FILTER_SET:2:IN:2", 100)]
             [("FILTER_SET:2:OUT:1", 0); ("FILTER_SET:2:OUT:2", 0)]); reflexivity.
  - apply (proj2 (filter_set_positions_sent 2 online eq_refl)). left. reflexivity.
Defined.

Lemma position_saved_after_device_witness :
  (exists s',
     _set_pos 2 "IN" online = (Ok (Wrapper.Returned tt), s') /\
     sent s' = sent online /\
     saved s' = saved online ++ [(autosave_path online, position_lines online)]) /\
  (exists s',
     _set_pos 1 "IN" online = (Ok (Wrapper.Returned tt), s') /\
     sent s' = sent (snd (_set_filter_set (1 - 1) online)) /\
     saved s' = saved (snd (_set_filter_set (1 - 1) online))
                ++ [(autosave_path (snd (_set_filter_set (1 - 1) online)),
                     position_lines (snd (_set_filter_set (1 - 1) online)))]).
Proof.
  split.
  - apply (proj1 (position_saved_after_device 2 "IN" online eq_refl)). discriminate.
  - apply (proj1 (proj2 (position_saved_after_device 1 "IN" online eq_refl) eq_refl
                    (snd (_set_filter_set (1 - 1) online)))
             (Wrapper.Returned tt)).
    reflexivity.
Defined.

Lemma renaming_while_recording_witness :
  file_name (wrapper (snd (put_file_name "other.h5"
                             (set_wrapper (set_connected true recording) startup))))
  = "other.h5" /\
  file_full_name (wrapper (snd (put_file_name "other.h5"
                                  (set_wrapper (set_connected true recording) startup))))
  = "/data/other.h5" /\
  fst (on_wrapper _open_file
         (snd (put_file_name "other.h5"
                 (set_wrapper (set_connected true recording) startup))))
  = Ok false /\
  file_full_name (wrapper (snd (put_file_name "other.h5"
                                  (set_wrapper recording startup))))
  = "/data/tmp.h5" /\
  fst (on_wrapper _open_file
         (snd (put_file_name "other.h5" (set_wrapper recording startup))))
  = Ok true.
Proof.
  pose proof (renaming_while_recording "other.h5"
                (set_wrapper (set_connected true recording) startup)
                {| filename := "/data/tmp.h5"; datasets := ∅ |} eq_refl) as Hon.
  pose proof (renaming_while_recording "other.h5"
                (set_wrapper recording startup)
                {| filename := "/data/tmp.h5"; datasets := ∅ |} eq_refl) as Hoff.
  split; [exact (proj1 Hon)|].
  split; [exact (proj1 (proj1 (proj2 (proj2 Hon)) eq_refl))|].
  split; [apply (proj2 (proj1 (proj2 (proj2 Hon)) eq_refl)); discriminate|].
  split; [exact (proj1 (proj2 (proj2 (proj2 Hoff)) eq_refl))|].
  apply (proj2 (proj2 (proj2 (proj2 Hoff)) eq_refl)). reflexivity.
Defined.

End LegacyCommandProofs.
